(** * Joke Notifier: the polling loop, the joke fetcher and the settings store

    A shallow embedding of [joke_notifier.py].  The widget tree, the style
    sheets and the tray menu are left out.  What is kept is the state of the
    [JokeNotifier] window (the running flag, the threads it started, the joke
    history and its cap, the settings and the texts of the status widgets),
    the worker thread of [joke_notification_loop] cut at its statements,
    [fetch_and_show_joke] with the answers of the API as an input, and the
    settings dictionary with its file and its dialog. *)

From Stdlib Require Import ZArith QArith Qround Ascii String List Lia.
From stdpp Require Import base option list strings pretty gmap fin_maps.

#[local] Set Warnings "-register-all".
Local Open Scope string_scope.
Local Open Scope Z_scope.

(** ** Values

    Every value the program stores in [self.settings] or reads from the API
    answer comes out of [json.load] / [response.json()].  Numbers are the
    integers of both wire formats (floating point numbers are not modelled),
    and a field that holds a nested object occurs in neither format and is
    outside this type.  A [string] is a sequence of characters, one [ascii]
    per code point, so [String.length] is Python's [len]. *)

Inductive json : Type :=
  | JNull
  | JBool (b : bool)
  | JNum (n : Z)
  | JStr (s : string)
  | JList (l : list json).

(** Exceptions, with the text [str(e)] gives. *)
Inductive exn : Type :=
  | KeyError (key : string)
  | TypeError (msg : string)
  | AttributeError (msg : string)
  | ValueError (msg : string)
  | OverflowError (msg : string)
  | IOError (msg : string).

Module Py.

Definition LF : string := String "010"%char EmptyString.

Definition type_name (v : json) : string :=
  match v with
  | JNull => "NoneType"
  | JBool _ => "bool"
  | JNum _ => "int"
  | JStr _ => "str"
  | JList _ => "list"
  end.

(** [bool(v)] *)
Definition truthy (v : json) : bool :=
  match v with
  | JNull => false
  | JBool b => b
  | JNum n => negb (n =? 0)
  | JStr s => negb (String.eqb s EmptyString)
  | JList l => match l with [] => false | _ => true end
  end.

(** [v == "literal"]: only a string equals a string. *)
Definition eq_str (v : json) (s : string) : bool :=
  match v with
  | JStr t => String.eqb t s
  | _ => false
  end.

(** [a == b] on values; [True == 1] and [False == 0] as in Python. *)
Definition as_int (v : json) : option Z :=
  match v with
  | JBool b => Some (if b then 1 else 0)
  | JNum n => Some n
  | _ => None
  end.

Fixpoint eq (a b : json) {struct a} : bool :=
  match a, b with
  | JNull, JNull => true
  | JStr s, JStr t => String.eqb s t
  | JList l, JList m =>
      (fix eq_list (l m : list json) {struct l} : bool :=
         match l, m with
         | [], [] => true
         | x :: l', y :: m' => eq x y && eq_list l' m'
         | _, _ => false
         end) l m
  | (JBool _ | JNum _), (JBool _ | JNum _) =>
      match as_int a, as_int b with
      | Some x, Some y => x =? y
      | _, _ => false
      end
  | _, _ => false
  end.

(** [a == b] where either side may be the [None] that [dict.get] returns
    for an absent key. *)
Definition eq_opt (a b : option json) : bool :=
  eq (default JNull a) (default JNull b).

(** [str.lower] on the characters of this model: the ASCII capitals and
    the capitals of the Latin-1 block. *)
Definition lower_char (c : ascii) : ascii :=
  let n := N_of_ascii c in
  if ((65 <=? n) && (n <=? 90) || (192 <=? n) && (n <=? 214)
      || (216 <=? n) && (n <=? 222))%N
  then ascii_of_N (n + 32) else c.

Fixpoint lower (s : string) : string :=
  match s with
  | EmptyString => EmptyString
  | String c r => String (lower_char c) (lower r)
  end.

(** [repr] of a string: the quote is the apostrophe, unless the string has
    an apostrophe and no double quote; the quote and the backslash are
    escaped with a backslash, a tab, a line feed and a carriage return are
    written with their letter, and the other control characters and the
    unprintable characters of the Latin-1 block as a two-digit hex code. *)
Definition apostrophe : ascii := "039"%char.
Definition dquote : ascii := "034"%char.
Definition backslash : ascii := "092"%char.

Definition hex_digit (n : N) : ascii :=
  default "0"%char (String.get (N.to_nat n) "0123456789abcdef").

Definition contains_char (c : ascii) (s : string) : bool :=
  existsb (Ascii.eqb c) (list_ascii_of_string s).

Definition repr_char (quote c : ascii) : string :=
  let n := N_of_ascii c in
  if Ascii.eqb c quote || Ascii.eqb c backslash
  then String backslash (String c EmptyString)
  else if (n =? 9)%N then String backslash "t"
  else if (n =? 10)%N then String backslash "n"
  else if (n =? 13)%N then String backslash "r"
  else if ((n <? 32) || (n =? 127) || (128 <=? n) && (n <=? 160) || (n =? 173))%N
  then String backslash (String "x"%char
         (String (hex_digit (n / 16))
            (String (hex_digit (n mod 16)) EmptyString)))
  else String c EmptyString.

Definition repr_str (s : string) : string :=
  let quote : ascii :=
    if contains_char apostrophe s && negb (contains_char dquote s)
    then dquote else apostrophe in
  String quote
    (String.concat EmptyString
       (map (repr_char quote) (list_ascii_of_string s))
     +:+ String quote EmptyString).

Fixpoint repr (v : json) : string :=
  match v with
  | JNull => "None"
  | JBool true => "True"
  | JBool false => "False"
  | JNum n => pretty n
  | JStr s => repr_str s
  | JList l => "[" +:+ String.concat ", " (map repr l) +:+ "]"
  end.

(** [str(v)], which is what an f-string field [{v}] formats to. *)
Definition str (v : json) : string :=
  match v with
  | JStr s => s
  | _ => repr v
  end.

Definition str_exn (e : exn) : string :=
  match e with
  | KeyError k => repr_str k
  | TypeError m | AttributeError m | ValueError m | OverflowError m
  | IOError m => m
  end.

End Py.

(** ** Dictionaries and the remaining Python operations *)

Abbreviation dict := (gmap string json).

Definition result (A : Type) : Type := exn + A.

Module PyOps.

(** [d[key]] *)
Definition getitem (d : dict) (key : string) : result json :=
  match d !! key with
  | Some v => inr v
  | None => inl (KeyError key)
  end.

(** [d.get(key, dflt)] *)
Definition get (d : dict) (key : string) (dflt : json) : json :=
  default dflt (d !! key).

(** [len(v)] *)
Definition len (v : json) : result Z :=
  match v with
  | JStr s => inr (Z.of_nat (String.length s))
  | JList l => inr (Z.of_nat (length l))
  | _ => inl (TypeError
                ("object of type '" +:+ Py.type_name v +:+ "' has no len()"))
  end.

(** [v.lower()] *)
Definition lower (v : json) : result string :=
  match v with
  | JStr s => inr (Py.lower s)
  | _ => inl (AttributeError
                ("'" +:+ Py.type_name v +:+ "' object has no attribute 'lower'"))
  end.

(** The items of [sep.join(...)], which must all be strings. *)
Fixpoint join_items (i : nat) (l : list json) : result (list string) :=
  match l with
  | [] => inr []
  | JStr s :: r =>
      match join_items (S i) r with
      | inr ss => inr (s :: ss)
      | inl e => inl e
      end
  | v :: _ =>
      inl (TypeError ("sequence item " +:+ pretty i
                      +:+ ": expected str instance, "
                      +:+ Py.type_name v +:+ " found"))
  end.

(** [sep.join(v)]: a list is joined item by item, a string character by
    character, anything else is not iterable. *)
Definition join (sep : string) (v : json) : result string :=
  match v with
  | JList l =>
      match join_items 0 l with
      | inr ss => inr (String.concat sep ss)
      | inl e => inl e
      end
  | JStr s =>
      inr (String.concat sep
             (map (fun c => String c EmptyString) (list_ascii_of_string s)))
  | _ => inl (TypeError "can only join an iterable")
  end.

(** [l[:k]] with Python's reading of a negative bound. *)
Definition slice_to {A : Type} (l : list A) (k : Z) : list A :=
  if 0 <=? k then take (Z.to_nat k) l
  else take (Z.to_nat (Z.of_nat (length l) + k)) l.

(** [v * 1000]: a number is multiplied, a string or a list is repeated a
    thousand times, and [None] has no product. *)
Definition times_1000 (v : json) : result json :=
  match v with
  | JNull =>
      inl (TypeError "unsupported operand type(s) for *: 'NoneType' and 'int'")
  | JBool b => inr (JNum (if b then 1000 else 0))
  | JNum n => inr (JNum (n * 1000))
  | JStr s => inr (JStr (String.concat EmptyString (replicate 1000 s)))
  | JList l => inr (JList (concat (replicate 1000 l)))
  end.

(** One element of the sequence handed to [dict.update]: it has to be a
    sequence of two items, the key and the value.  A string of two
    characters is such a sequence.  A key that is a list cannot be hashed.
    A key that is a number, a boolean or [None] is stored by Python under
    that key, which the program never looks up; a [dict] has strings as
    keys, so such a pair is not kept and the element is passed over. *)
Definition update_item (i : nat) (item : json)
    : result (option (string * json)) :=
  let wrong_length (n : nat) :=
    inl (ValueError ("dictionary update sequence element #" +:+ pretty i
                     +:+ " has length " +:+ pretty n
                     +:+ "; 2 is required")) in
  match item with
  | JList [JStr key; value] => inr (Some (key, value))
  | JList [JList _; _] => inl (TypeError "unhashable type: 'list'")
  | JList [_; _] => inr None
  | JList l => wrong_length (length l)
  | JStr (String key (String value EmptyString)) =>
      inr (Some (String key EmptyString, JStr (String value EmptyString)))
  | JStr s => wrong_length (String.length s)
  | JNull | JBool _ | JNum _ =>
      inl (TypeError ("cannot convert dictionary update sequence element #"
                      +:+ pretty i +:+ " to a sequence"))
  end.

(** The elements are merged one by one; those merged before an element
    raises stay in the dictionary. *)
Fixpoint update_items (i : nat) (items : list json) (d : dict)
    : dict * option exn :=
  match items with
  | [] => (d, None)
  | item :: rest =>
      match update_item i item with
      | inl e => (d, Some e)
      | inr (Some (key, value)) => update_items (S i) rest (<[key := value]> d)
      | inr None => update_items (S i) rest d
      end
  end.

(** [d.update(v)] for a value [v] of [json], none of which is a mapping:
    [v] is iterated, a string character by character. *)
Definition update (d : dict) (v : json) : dict * option exn :=
  match v with
  | JList items => update_items 0 items d
  | JStr s => update_items 0 (map (fun c => JStr (String c EmptyString))
                                  (list_ascii_of_string s)) d
  | JNull | JBool _ | JNum _ =>
      (d, Some (TypeError ("'" +:+ Py.type_name v
                           +:+ "' object is not iterable")))
  end.

End PyOps.

(** ** What the program sends out

    The worker thread talks to the rest of the world through the signals of
    [SignalBridge], through [requests.get] and through the notification
    backend.  A run is described by the list of these actions, in order. *)

(** The dictionary [joke_with_meta] of [fetch_and_show_joke]. *)
Record joke : Type := {
  text : json;
  category : json;
  time : string;
  joke_id : json          (* key [id] *)
}.

Inductive notification_system : Type :=
  | win10toast_click | win10toast | plyer | notify2 | qt.

Inductive action : Type :=
  | HttpGet (url : string)
  | EmitStatus (msg : string)            (* [update_status.emit] *)
  | EmitNextJokeTime (msg : string)      (* [update_next_joke_time.emit] *)
  | EmitAddJoke (j : joke)               (* [add_joke.emit] *)
  | Notify (system : notification_system) (title message duration : json)
  | MessageBox (title message : json).
      (* [QTimer.singleShot(0, lambda: QMessageBox.information(...))] *)

(** [MessageBox] is the posting of the box, not the box: the timer is
    posted to the event loop of the thread that runs [show_notification].
    The interface thread runs the Qt event loop, so a box posted by
    [send_test_notification] opens.  [fetch_and_show_joke] runs on the
    [threading.Thread] of [start_notifications], which has no event loop:
    a timer posted there never fires and the box never opens. *)
Inductive caller : Type := interface_thread | worker_thread.

Definition opens (c : caller) (a : action) : bool :=
  match a, c with
  | MessageBox _ _, interface_thread => true
  | _, _ => false
  end.

(** A computation that emits actions and either returns or raises. *)
Definition M (A : Type) : Type := list action * result A.

Definition ret {A} (a : A) : M A := ([], inr a).
Definition raise {A} (e : exn) : M A := ([], inl e).
Definition emit (a : action) : M unit := ([a], inr tt).
Definition lift {A} (r : result A) : M A := ([], r).

Definition bind {A B} (m : M A) (k : A -> M B) : M B :=
  match m with
  | (t, inl e) => (t, inl e)
  | (t, inr a) => let '(t', r) := k a in ((t ++ t')%list, r)
  end.

(** [try: m except Exception as e: h e] *)
Definition try_except {A} (m : M A) (h : exn -> M A) : M A :=
  match m with
  | (t, inl e) => let '(t', r) := h e in ((t ++ t')%list, r)
  | (t, inr a) => (t, inr a)
  end.

Notation "x <- m ;; k" := (bind m (fun x => k))
  (at level 100, m at next level, right associativity).
Notation "m ;;; k" := (bind m (fun _ => k))
  (at level 100, right associativity).

(** ** The joke fetcher *)

(** What the outside world answers during one call of [fetch_and_show_joke]:
    the outcome of [requests.get(url)] followed by [response.json()], the
    text of [datetime.now().strftime(...)], and whether the notification
    backend raises. *)
Inductive http_result : Type :=
  | HttpRaise (e : exn)          (* no answer, or a body that is not JSON *)
  | HttpObject (d : dict)        (* a JSON object *)
  | HttpValue (v : json).        (* a JSON body that is not an object *)

Record world : Type := {
  http : string -> http_result;
  strftime : string;
  NOTIFICATION_SYSTEM : notification_system;
  tray_icon : bool;                          (* [hasattr(self, 'tray_icon')] *)
  backend_raises : option exn
}.

Definition base_url : string := "https://v2.jokeapi.dev/joke/".

(** Lines 347 to 361, the block under the comment Build URL. *)
Definition build_url (settings : dict) : result string :=
  match PyOps.getitem settings "categories" with
  | inl e => inl e
  | inr cats =>
  match PyOps.join "," cats with
  | inl e => inl e
  | inr categories =>
  let url := base_url +:+ categories
             +:+ "?blacklistFlags=religious,racist,sexist,explicit" in
  match PyOps.getitem settings "safe_mode" with
  | inl e => inl e
  | inr safe_mode =>
  let url := if Py.truthy safe_mode then url +:+ "&safe-mode" else url in
  match PyOps.getitem settings "joke_type" with
  | inl e => inl e
  | inr joke_type =>
  match (if negb (Py.eq_str joke_type "Any")
         then match PyOps.lower joke_type with
              | inr t => inr (url +:+ "&type=" +:+ t)
              | inl e => inl e
              end
         else inr url) with
  | inl e => inl e
  | inr url =>
  match PyOps.getitem settings "language" with
  | inl e => inl e
  | inr language =>
      if negb (Py.eq_str language "en")
      then inr (url +:+ "&lang=" +:+ Py.str language)
      else inr url
  end end end end end end.

(** The handler of [show_notification]: the error goes to the status and
    the fallback box is posted. *)
Definition notification_failed (title message : json) (e : exn) : M bool :=
  emit (EmitStatus ("Notification error: " +:+ Py.str_exn e)) ;;;
  emit (MessageBox title message) ;;;
  ret false.

(** [backend_raises] is an exception the backend objects raise inside the
    [try]; it is taken to strike at the first contact with the backend,
    before [duration * 1000] is computed.  That product is computed for
    [notify2] and for the tray icon of Qt only, and it raises for a
    duration that is [None]; the product of a string or a list is handed
    on, and what the backend makes of it is the backend's, so it arrives
    here through [backend_raises].  [Notify] carries the duration of the
    settings, in seconds. *)
Definition show_notification (w : world) (settings : dict)
    (title message : json) : M bool :=
  let duration := PyOps.get settings "notification_duration" (JNum 10) in
  match backend_raises w with
  | Some e => notification_failed title message e
  | None =>
      match NOTIFICATION_SYSTEM w, tray_icon w with
      | qt, false => emit (MessageBox title message) ;;; ret true
      | (notify2 | qt) as sys, _ =>
          match PyOps.times_1000 duration with
          | inl e => notification_failed title message e
          | inr _ => emit (Notify sys title message duration) ;;; ret true
          end
      | sys, _ => emit (Notify sys title message duration) ;;; ret true
      end
  end.

Definition response_json (r : http_result) : M dict :=
  match r with
  | HttpRaise e => raise e
  | HttpObject d => ret d
  | HttpValue v =>
      raise (AttributeError
               ("'" +:+ Py.type_name v +:+ "' object has no attribute 'get'"))
  end.

Definition fetch_and_show_joke (w : world) (settings : dict) : M unit :=
  try_except
    (url <- lift (build_url settings) ;;
     emit (HttpGet url) ;;;
     joke_data <- response_json (http w url) ;;
     if Py.truthy (PyOps.get joke_data "error" (JBool false)) then
       let error_message :=
         PyOps.get joke_data "message" (JStr "Unknown error") in
       emit (EmitStatus ("Error: " +:+ Py.str error_message))
     else
       ty <- lift (PyOps.getitem joke_data "type") ;;
       p <- (if Py.eq_str ty "single" then
               j <- lift (PyOps.getitem joke_data "joke") ;;
               ret (j, JStr "Joke Time!")
             else
               setup <- lift (PyOps.getitem joke_data "setup") ;;
               delivery <- lift (PyOps.getitem joke_data "delivery") ;;
               let joke_text :=
                 JStr (Py.str setup +:+ Py.LF +:+ Py.LF +:+ Py.str delivery) in
               n <- lift (PyOps.len setup) ;;
               ret (joke_text,
                    if 50 <? n then JStr "Joke Time!" else setup)) ;;
       let '(joke_text, notification_title) := p in
       let timestamp := strftime w in
       emit (EmitAddJoke {| text := joke_text;
                            category := PyOps.get joke_data "category"
                                          (JStr EmptyString);
                            time := timestamp;
                            joke_id := PyOps.get joke_data "id"
                                         (JStr EmptyString) |}) ;;;
       notification_message <-
         (if Py.eq_str ty "twopart"
          then lift (PyOps.getitem joke_data "delivery")
          else ret joke_text) ;;
       show_notification w settings notification_title notification_message ;;;
       emit (EmitStatus ("Last joke sent successfully at " +:+ timestamp)))
    (fun e => emit (EmitStatus ("Error: " +:+ Py.str_exn e))).


(** ** The worker thread

    [joke_notification_loop] runs on its own thread while the methods of
    the window run on the interface thread, so the loop is cut at its
    statements: a thread is at one of the lines below and a step executes
    that line.  The two attributes of [self] the loop reads, [is_running]
    and [settings], are arguments of the step, so that the interface thread
    may change them between any two steps.  Clock readings and deadlines
    are rationals: the sum of line 322 and the difference of line 330 are
    exact here, where Python rounds them to the nearest float. *)

Inductive line : Type :=
  | L317          (* the first [self.fetch_and_show_joke()] *)
  | L320          (* [while self.is_running:] *)
  | L322          (* [next_joke_time = time.time() + ...] *)
  | L325          (* [while time.time() < next_joke_time and self.is_running:] *)
  | L326          (* [if not self.is_running: return] *)
  | L330          (* [remaining = int(next_joke_time - time.time())] *)
  | L333          (* [update_next_joke_time.emit(...)] *)
  | L336          (* [time.sleep(1)] *)
  | L339          (* [if self.is_running:] *)
  | L340          (* [self.fetch_and_show_joke()] *)
  | Returned
  | Raised (e : exn).

Record thread : Type := {
  at_line : line;
  next_joke_time : Q;
  remaining : Z
}.

Definition goto (t : thread) (l : line) : thread :=
  {| at_line := l; next_joke_time := next_joke_time t;
     remaining := remaining t |}.

(** What the outside world supplies to one step. *)
Record tick : Type := {
  clock : Q;              (* [time.time()] *)
  outside : world
}.

(** [int(q)] *)
Definition Qtrunc (q : Q) : Z :=
  if Qle_bool 0 q then Qfloor q else Qceiling q.

(** The integers from which on [float] refuses the conversion: those that
    round to two to the power 1024. *)
Definition float_overflow : Z := 2 ^ 1024 - 2 ^ 970.

(** [self.settings["frequency"] * 60], as far as [time.time() + ...]
    accepts it: the sum converts the integer to a float, and an integer
    out of the range of the floats raises. *)
Definition frequency_seconds (settings : dict) : result Z :=
  match PyOps.getitem settings "frequency" with
  | inl e => inl e
  | inr v =>
      match Py.as_int v with
      | Some n =>
          if float_overflow <=? Z.abs (n * 60)
          then inl (OverflowError "int too large to convert to float")
          else inr (n * 60)
      | None =>
          match v with
          | JNull =>
              inl (TypeError
                     "unsupported operand type(s) for *: 'NoneType' and 'int'")
          | _ =>
              inl (TypeError
                     ("unsupported operand type(s) for +: 'float' and '"
                      +:+ Py.type_name v +:+ "'"))
          end
      end
  end.

Definition countdown (remaining : Z) : string :=
  let mins := remaining / 60 in
  let secs := remaining mod 60 in
  "Next joke in: " +:+ pretty mins +:+ "m " +:+ pretty secs +:+ "s".

Definition step (k : tick) (is_running : bool) (settings : dict)
    (t : thread) : thread * list action :=
  match at_line t with
  | L317 | L340 =>
      (goto t L320, fst (fetch_and_show_joke (outside k) settings))
  | L320 => (goto t (if is_running then L322 else Returned), [])
  | L322 =>
      match frequency_seconds settings with
      | inr s =>
          ({| at_line := L325;
              next_joke_time := (clock k + inject_Z s)%Q;
              remaining := remaining t |}, [])
      | inl e => (goto t (Raised e), [])
      end
  | L325 =>
      (goto t (if negb (Qle_bool (next_joke_time t) (clock k)) && is_running
               then L326 else L339), [])
  | L326 => (goto t (if negb is_running then Returned else L330), [])
  | L330 =>
      ({| at_line := L333;
          next_joke_time := next_joke_time t;
          remaining := Qtrunc (next_joke_time t - clock k)%Q |}, [])
  | L333 => (goto t L336, [EmitNextJokeTime (countdown (remaining t))])
  | L336 => (goto t L325, [])
  | L339 => (goto t (if is_running then L340 else L320), [])
  | Returned | Raised _ => (t, [])
  end.

(** The thread runs one step per tick while nothing else touches [self]. *)
Fixpoint run (ks : list tick) (is_running : bool) (settings : dict)
    (t : thread) : thread * list action :=
  match ks with
  | [] => (t, [])
  | k :: ks' =>
      let '(t1, a1) := step k is_running settings t in
      let '(t2, a2) := run ks' is_running settings t1 in
      (t2, (a1 ++ a2)%list)
  end.

Definition new_thread : thread :=
  {| at_line := L317; next_joke_time := 0%Q; remaining := 0 |}.

(** ** The window object

    The attributes of [JokeNotifier] that the methods below read or write.
    [joke_threads] lists every thread [start_notifications] has started, the
    last one being [self.joke_thread]: a thread object that is no longer
    referenced keeps running.  Of each widget only the text is kept. *)

Record JokeNotifier : Type := {
  is_running : bool;
  joke_threads : list thread;
  last_jokes : list joke;
  max_stored_jokes : json;
  settings : dict;
  status_label : string;
  next_joke_label : string;
  toggle_button : string;
  status_indicator : string;
  tray_toggle_action : option string
}.

Definition default_settings : dict :=
  <["frequency" := JNum 30]>
  (<["categories" := JList [JStr "Any"]]>
  (<["safe_mode" := JBool true]>
  (<["joke_type" := JStr "Any"]>
  (<["language" := JStr "en"]>
  (<["autostart" := JBool false]>
  (<["notification_duration" := JNum 10]>
  (<["max_history" := JNum 15]> ∅))))))).

(** The state [__init__] sets up before it calls [load_settings]. *)
Definition constructed : JokeNotifier := {|
  is_running := false;
  joke_threads := [];
  last_jokes := [];
  max_stored_jokes := JNum 15;
  settings := default_settings;
  status_label := "Ready to start";
  next_joke_label := EmptyString;
  toggle_button := "Start Notifications";
  status_indicator := "red";
  tray_toggle_action := None
|}.

Definition update_status (self : JokeNotifier) (message : string)
    : JokeNotifier :=
  {| is_running := is_running self; joke_threads := joke_threads self;
     last_jokes := last_jokes self;
     max_stored_jokes := max_stored_jokes self; settings := settings self;
     status_label := message;
     next_joke_label := next_joke_label self;
     toggle_button := toggle_button self;
     status_indicator := status_indicator self;
     tray_toggle_action := tray_toggle_action self |}.

Definition update_next_joke_time (self : JokeNotifier) (message : string)
    : JokeNotifier :=
  {| is_running := is_running self; joke_threads := joke_threads self;
     last_jokes := last_jokes self;
     max_stored_jokes := max_stored_jokes self; settings := settings self;
     status_label := status_label self;
     next_joke_label := message;
     toggle_button := toggle_button self;
     status_indicator := status_indicator self;
     tray_toggle_action := tray_toggle_action self |}.

Definition start_notifications (self : JokeNotifier) : JokeNotifier :=
  {| is_running := true;
     joke_threads := (joke_threads self ++ [new_thread])%list;
     last_jokes := last_jokes self;
     max_stored_jokes := max_stored_jokes self; settings := settings self;
     status_label := "Running - Sending notifications";
     next_joke_label := next_joke_label self;
     toggle_button := "Stop Notifications";
     status_indicator := "green";
     tray_toggle_action :=
       match tray_toggle_action self with
       | Some _ => Some "Stop Notifications"
       | None => None
       end |}.

Definition stop_notifications (self : JokeNotifier) : JokeNotifier :=
  {| is_running := false;
     joke_threads := joke_threads self;
     last_jokes := last_jokes self;
     max_stored_jokes := max_stored_jokes self; settings := settings self;
     status_label := "Stopped";
     next_joke_label := EmptyString;
     toggle_button := "Start Notifications";
     status_indicator := "red";
     tray_toggle_action :=
       match tray_toggle_action self with
       | Some _ => Some "Start Notifications"
       | None => None
       end |}.

Definition toggle_notifications (self : JokeNotifier) : JokeNotifier :=
  if is_running self then stop_notifications self
  else start_notifications self.

(** The list of recent jokes: the string operations of
    [update_jokes_listbox], then the method itself. *)
Module PyStr.

(** [s.replace(old, new)] scans [s] from the left; after a match it goes on
    behind the matched text.  [skip] counts the characters of a match that
    are still to be passed over. *)
Fixpoint replace_go (old new : string) (skip : nat) (s : string) : string :=
  match s with
  | EmptyString => EmptyString
  | String c r =>
      match skip with
      | S k => replace_go old new k r
      | O =>
          if String.prefix old s
          then new +:+ replace_go old new (String.length old - 1) r
          else String c (replace_go old new 0 r)
      end
  end.

(** With an empty [old], Python puts [new] before every character and at
    the end. *)
Fixpoint intersperse (new s : string) : string :=
  match s with
  | EmptyString => new
  | String c r => new +:+ String c (intersperse new r)
  end.

Definition replace (old new s : string) : string :=
  match old with
  | EmptyString => intersperse new s
  | _ => replace_go old new 0 s
  end.

(** [s[:n]] for [n >= 0] *)
Definition slice_to (s : string) (n : nat) : string := String.substring 0 n s.

End PyStr.

(** One row of the list widget, as the body of the loop of
    [update_jokes_listbox] builds it. *)
Definition listbox_row (j : joke) : result string :=
  match text j with
  | JStr t =>
      let joke_text := PyStr.replace (Py.LF +:+ Py.LF) " - " t in
      let joke_text :=
        if (60 <? String.length joke_text)%nat
        then PyStr.slice_to joke_text 57 +:+ "..."
        else joke_text in
      inr ("[" +:+ time j +:+ "] " +:+ joke_text)
  | v =>
      inl (AttributeError
             ("'" +:+ Py.type_name v +:+ "' object has no attribute 'replace'"))
  end.

(** [update_jokes_listbox]: the widget is cleared and refilled row by row;
    the rows added before a row raises stay in the widget. *)
Fixpoint update_jokes_listbox (last_jokes : list joke)
    : list string * result unit :=
  match last_jokes with
  | [] => ([], inr tt)
  | j :: rest =>
      match listbox_row j with
      | inl e => ([], inl e)
      | inr row =>
          let '(rows, r) := update_jokes_listbox rest in (row :: rows, r)
      end
  end.

(** [len(self.last_jokes) > self.max_stored_jokes] needs a number on the
    right.  The method ends with [self.update_jokes_listbox()], which
    raises when a record that was kept has a text that is not a string.
    The list widget it refills is a view of [last_jokes] and is not kept. *)
Definition add_joke_to_list (self : JokeNotifier) (joke_data : joke)
    : result JokeNotifier :=
  let jokes := joke_data :: last_jokes self in
  match Py.as_int (max_stored_jokes self) with
  | None =>
      inl (TypeError ("'>' not supported between instances of 'int' and '"
                      +:+ Py.type_name (max_stored_jokes self) +:+ "'"))
  | Some cap =>
      let jokes :=
        if cap <? Z.of_nat (length jokes)
        then PyOps.slice_to jokes cap else jokes in
      match snd (update_jokes_listbox jokes) with
      | inl e => inl e
      | inr _ =>
          inr {| is_running := is_running self;
                 joke_threads := joke_threads self;
                 last_jokes := jokes;
                 max_stored_jokes := max_stored_jokes self;
                 settings := settings self;
                 status_label := status_label self;
                 next_joke_label := next_joke_label self;
                 toggle_button := toggle_button self;
                 status_indicator := status_indicator self;
                 tray_toggle_action := tray_toggle_action self |}
      end
  end.

(** The slots [__init__] connects to the three signals; the other actions
    do not touch the window. *)
Definition slot (a : action) (self : JokeNotifier) : result JokeNotifier :=
  match a with
  | EmitStatus message => inr (update_status self message)
  | EmitNextJokeTime message => inr (update_next_joke_time self message)
  | EmitAddJoke j => add_joke_to_list self j
  | HttpGet _ | Notify _ _ _ _ | MessageBox _ _ => inr self
  end.

Fixpoint deliver (acts : list action) (self : JokeNotifier)
    : result JokeNotifier :=
  match acts with
  | [] => inr self
  | a :: rest =>
      match slot a self with
      | inr self' => deliver rest self'
      | inl e => inl e
      end
  end.

(** One fetch-and-notify cycle as the window sees it: the worker runs
    [fetch_and_show_joke] on the current settings and the interface thread
    handles what it emitted. *)
Definition cycle (w : world) (self : JokeNotifier) : result JokeNotifier :=
  deliver (fst (fetch_and_show_joke w (settings self))) self.

Fixpoint cycles (ws : list world) (self : JokeNotifier)
    : result JokeNotifier :=
  match ws with
  | [] => inr self
  | w :: rest =>
      match cycle w self with
      | inr self' => cycles rest self'
      | inl e => inl e
      end
  end.

(** The record a cycle adds to the history, if it adds one. *)
Definition fetched_joke (w : world) (settings : dict) : option joke :=
  head (omap (fun a => match a with EmitAddJoke j => Some j | _ => None end)
             (fst (fetch_and_show_joke w settings))).

(** ** The settings file

    The file [joke_notifier_settings.json] either does not exist, or holds a
    JSON object, or holds JSON that is not an object, or makes [open] or
    [json.load] raise.  [json.dump] followed by [json.load] gives back the
    dictionary it was given: every value of [json] is one that the [json]
    module writes and reads back unchanged. *)

Inductive file_content : Type :=
  | FileObject (d : dict)
  | FileValue (v : json)
  | FileBroken (e : exn).

Record disk : Type := {
  settings_file : option file_content;
  write_raises : option exn       (* [open(settings_path, "w")] fails *)
}.

Definition with_settings (self : JokeNotifier) (d : dict) : JokeNotifier :=
  {| is_running := is_running self; joke_threads := joke_threads self;
     last_jokes := last_jokes self;
     max_stored_jokes := max_stored_jokes self; settings := d;
     status_label := status_label self;
     next_joke_label := next_joke_label self;
     toggle_button := toggle_button self;
     status_indicator := status_indicator self;
     tray_toggle_action := tray_toggle_action self |}.

Definition save_settings_to_file (self : JokeNotifier) (fs : disk)
    : JokeNotifier * disk :=
  match write_raises fs with
  | Some e =>
      (update_status self ("Error saving settings: " +:+ Py.str_exn e), fs)
  | None =>
      (self, {| settings_file := Some (FileObject (settings self));
                write_raises := None |})
  end.

(** The body of the [try] in [load_settings], with the exception it ends
    in, if any.  [self.settings.update(d)] lets the loaded keys win; it
    changes the dictionary in place, so what it merged before it raised
    stays merged. *)
Definition load_settings_try (self : JokeNotifier) (fs : disk)
    : JokeNotifier * option exn :=
  match settings_file fs with
  | None => (self, None)
  | Some (FileBroken e) => (self, Some e)
  | Some (FileObject loaded_settings) =>
      (with_settings self (loaded_settings ∪ settings self), None)
  | Some (FileValue loaded_settings) =>
      let '(merged, raised) := PyOps.update (settings self) loaded_settings in
      (with_settings self merged, raised)
  end.

Definition load_settings (self : JokeNotifier) (fs : disk)
    : result JokeNotifier :=
  match load_settings_try self fs with
  | (self', None) => inr self'
  | (self', Some e) =>
      inr (update_status self' ("Error loading settings: " +:+ Py.str_exn e))
  end.

(** [__init__]: the constructor state, then [load_settings], then the tray
    menu of [setup_system_tray].  When [autostart] is set the constructor
    also arms a timer that calls [start_notifications] a second later. *)
Definition with_tray (self : JokeNotifier) (label : string) : JokeNotifier :=
  {| is_running := is_running self; joke_threads := joke_threads self;
     last_jokes := last_jokes self;
     max_stored_jokes := max_stored_jokes self; settings := settings self;
     status_label := status_label self;
     next_joke_label := next_joke_label self;
     toggle_button := toggle_button self;
     status_indicator := status_indicator self;
     tray_toggle_action := Some label |}.

Definition init (fs : disk) : result JokeNotifier :=
  match load_settings constructed fs with
  | inr self => inr (with_tray self "Start Notifications")
  | inl e => inl e
  end.

Definition autostart (self : JokeNotifier) : bool :=
  Py.truthy (PyOps.get (settings self) "autostart" (JBool false)).

(** ** The settings dialog

    The widgets of [SettingsDialog] as they stand when the user closes the
    dialog.  The dictionary the dialog was opened on, its attribute
    [current_settings], is passed to [get_settings] next to it. *)

Record SettingsDialog : Type := {
  frequency_slider : Z;
  category_mode_any : bool;
  category_checkboxes : list (string * bool);
  safe_mode_cb : bool;
  joke_type_any : bool;
  joke_type_single : bool;
  language_buttons : list (string * bool);
  autostart_cb : bool
}.

Definition get_settings (current_settings : dict) (dlg : SettingsDialog)
    : dict :=
  let settings := current_settings in
  let settings := <["frequency" := JNum (frequency_slider dlg)]> settings in
  let settings :=
    if category_mode_any dlg
    then <["categories" := JList [JStr "Any"]]> settings
    else
      let selected_categories :=
        map fst (filter (fun cb => snd cb = true) (category_checkboxes dlg)) in
      let selected_categories :=
        match selected_categories with
        | [] => ["Misc"]
        | _ => selected_categories
        end in
      <["categories" := JList (map JStr selected_categories)]> settings in
  let settings := <["safe_mode" := JBool (safe_mode_cb dlg)]> settings in
  let settings :=
    <["joke_type" :=
        JStr (if joke_type_any dlg then "Any"
              else if joke_type_single dlg then "single"
              else "twopart")]> settings in
  let settings :=
    match filter (fun rb => snd rb = true) (language_buttons dlg) with
    | (lang_code, _) :: _ => <["language" := JStr lang_code]> settings
    | [] => settings
    end in
  <["autostart" := JBool (autostart_cb dlg)]> settings.

(** [open_settings] once [settings_dialog.exec()] has returned. *)
Definition open_settings (self : JokeNotifier) (dlg : SettingsDialog)
    (accepted : bool) (fs : disk) : JokeNotifier * disk :=
  if accepted then
    let new_settings := get_settings (settings self) dlg in
    let was_running := is_running self in
    let differs (key : string) :=
      negb (Py.eq_opt (settings self !! key) (new_settings !! key)) in
    let settings_changed :=
      differs "frequency" || differs "categories" || differs "safe_mode"
      || differs "joke_type" || differs "language"
      || negb (Py.eq_opt
                 (Some (PyOps.get (settings self) "autostart" (JBool false)))
                 (new_settings !! "autostart")) in
    let self :=
      {| is_running := is_running self; joke_threads := joke_threads self;
         last_jokes := last_jokes self;
         max_stored_jokes := PyOps.get new_settings "max_history" (JNum 15);
         settings := new_settings;
         status_label := status_label self;
         next_joke_label := next_joke_label self;
         toggle_button := toggle_button self;
         status_indicator := status_indicator self;
         tray_toggle_action := tray_toggle_action self |} in
    let self :=
      if was_running && settings_changed
      then start_notifications (stop_notifications self) else self in
    let '(self, fs) := save_settings_to_file self fs in
    (update_status self "Settings saved successfully", fs)
  else (self, fs).

(** ** Vocabulary of the properties *)

(** The four settings the request is built from, typed as the settings
    schema types them: a list of category names, a boolean, and two
    strings. *)
Definition url_fields (s : dict) (cats : list string) (safe : bool)
    (jtype lang : string) : Prop :=
  s !! "categories" = Some (JList (map JStr cats))
  /\ s !! "safe_mode" = Some (JBool safe)
  /\ s !! "joke_type" = Some (JStr jtype)
  /\ s !! "language" = Some (JStr lang).

(** The optional type filter and language parameter of the request. *)
Definition type_filter (jtype : string) : string :=
  if String.eqb jtype "Any" then EmptyString
  else "&type=" +:+ Py.lower jtype.

Definition lang_param (lang : string) : string :=
  if String.eqb lang "en" then EmptyString else "&lang=" +:+ lang.

(** The part of a URL before its query. *)
Fixpoint url_path (url : string) : string :=
  match url with
  | EmptyString => EmptyString
  | String c rest =>
      if Ascii.eqb c "?"%char then EmptyString else String c (url_path rest)
  end.

(** A world in which the API answers with a two-part joke and the
    notification backend works; the examples below run in it. *)
Definition example_world : world := {|
  http := fun _ =>
    HttpObject (<["error" := JBool false]>
               (<["type" := JStr "twopart"]>
               (<["setup" := JStr "Why did the chicken cross the road?"]>
               (<["delivery" := JStr "To get to the other side."]>
               (<["category" := JStr "Misc"]>
               (<["id" := JNum 42]> ∅))))));
  strftime := "10:15 AM";
  NOTIFICATION_SYSTEM := plyer;
  tray_icon := true;
  backend_raises := None
|}.

(** A world in which the API reports an error. *)
Definition failing_world : world := {|
  http := fun _ =>
    HttpObject (<["error" := JBool true]>
               (<["message" := JStr "No matching joke found"]> ∅));
  strftime := "10:15 AM";
  NOTIFICATION_SYSTEM := plyer;
  tray_icon := true;
  backend_raises := None
|}.

(** The records among the actions of a cycle. *)
Definition added (acts : list action) : list joke :=
  omap (fun a => match a with EmitAddJoke j => Some j | _ => None end) acts.

(** The history after one more record under the cap [c]. *)
Definition push (c : Z) (history : list joke) (j : joke) : list joke :=
  take (Z.to_nat c) (j :: history).

(** Every record has a string as its text, so the list widget can show
    it. *)
Definition listable (history : list joke) : Prop :=
  Forall (fun j => exists t, text j = JStr t) history.

(** A settings file that sets [max_history] to 5 and nothing else. *)
Definition disk_with_max_history_5 : disk :=
  {| settings_file := Some (FileObject (<["max_history" := JNum 5]> ∅));
     write_raises := None |}.

(** The keys of the settings schema, those of the default settings. *)
Definition schema : list string :=
  ["frequency"; "categories"; "safe_mode"; "joke_type"; "language";
   "autostart"; "notification_duration"; "max_history"].

(** The lines of the inner loop, in which the thread waits for the deadline
    of the next joke. *)
Definition in_wait_phase (l : line) : bool :=
  match l with
  | L325 | L326 | L330 | L333 | L336 => true
  | _ => false
  end.




(** ** The rest of the window

    The methods of [JokeNotifier] and [SettingsDialog] that the definitions
    above leave out. *)

(** [show_full_joke]: the row the user double-clicked indexes the history. *)
Definition show_full_joke (self : JokeNotifier) (index : nat) : option joke :=
  last_jokes self !! index.

(** [send_test_notification] runs on the interface thread, where a signal
    of the bridge calls its slot at once and a posted box opens. *)
Definition send_test_notification (w : world) (self : JokeNotifier)
    : list action * result JokeNotifier :=
  let acts :=
    fst (show_notification w (settings self) (JStr "Test Notification")
           (JStr "This is a test notification from Joke Notifier. If you can see this, notifications are working!")) in
  (acts,
   match deliver acts self with
   | inr self' => inr (update_status self' "Test notification sent")
   | inl e => inl e
   end).

Definition toggle_notifications_from_tray (self : JokeNotifier)
    : JokeNotifier :=
  let self := toggle_notifications self in
  with_tray self
    (if is_running self then "Stop Notifications" else "Start Notifications").

(** [closeEvent]: with a visible tray icon the window is hidden, a balloon
    says so and the event is ignored; otherwise the poller is stopped, the
    settings are saved and the event is accepted.  The last component tells
    whether the event was accepted. *)
Definition closeEvent (self : JokeNotifier) (tray_visible : bool) (fs : disk)
    : list action * JokeNotifier * disk * bool :=
  if tray_visible then
    ([Notify qt (JStr "Joke Notifier")
        (JStr "Joke Notifier is still running in the system tray. Right-click the icon for options.")
        (JNum 3)],
     self, fs, false)
  else
    let self := if is_running self then stop_notifications self else self in
    let '(self, fs) := save_settings_to_file self fs in
    ([], self, fs, true).

(** [SettingsDialog.__init__] on settings whose values have the types of
    the schema, with a frequency that fits the 32 bits of the [int] that
    [QSlider.setValue] takes: the slider keeps its value inside its range,
    a check box or radio button is checked as the settings say. *)
Definition available_categories : list string :=
  ["Misc"; "Programming"; "Dark"; "Pun"; "Spooky"; "Christmas"].

Definition languages : list (string * string) :=
  [("English", "en"); ("German", "de"); ("Spanish", "es");
   ("French", "fr"); ("Italian", "it")].

(** [QSlider.setValue] *)
Definition slider_value (minimum maximum value : Z) : Z :=
  Z.max minimum (Z.min maximum value).

Definition dialog_opened_on (frequency : Z) (categories : list string)
    (safe_mode : bool) (joke_type language : string) (autostart : bool)
    : SettingsDialog := {|
  frequency_slider := slider_value 1 120 frequency;
  category_mode_any := bool_decide ("Any" ∈ categories);
  category_checkboxes :=
    map (fun cat =>
           (cat, bool_decide (cat ∈ categories)
                 && negb (bool_decide ("Any" ∈ categories))))
        available_categories;
  safe_mode_cb := safe_mode;
  joke_type_any := String.eqb joke_type "Any";
  joke_type_single := String.eqb joke_type "single";
  language_buttons :=
    map (fun l => (snd l, String.eqb language (snd l))) languages;
  autostart_cb := autostart
|}.

(** [set_quick_time] *)
Definition set_quick_time (dlg : SettingsDialog) (minutes : Z)
    : SettingsDialog := {|
  frequency_slider := slider_value 1 120 minutes;
  category_mode_any := category_mode_any dlg;
  category_checkboxes := category_checkboxes dlg;
  safe_mode_cb := safe_mode_cb dlg;
  joke_type_any := joke_type_any dlg;
  joke_type_single := joke_type_single dlg;
  language_buttons := language_buttons dlg;
  autostart_cb := autostart_cb dlg
|}.

(** What can happen to the window once it is constructed: a click on one of
    its buttons or tray entries, the timer of the autostart, a signal of a
    worker thread reaching its slot, the settings dialog, the close box. *)
Inductive event : Type :=
  | Toggle
  | ToggleFromTray
  | AutostartTimer
  | Signal (a : action)
  | TestNotification (w : world)
  | Settings (dlg : SettingsDialog) (accepted : bool)
  | Close (tray_visible : bool).

Definition handle (ev : event) (st : JokeNotifier * disk)
    : result (JokeNotifier * disk) :=
  let '(self, fs) := st in
  match ev with
  | Toggle => inr (toggle_notifications self, fs)
  | ToggleFromTray => inr (toggle_notifications_from_tray self, fs)
  | AutostartTimer => inr (start_notifications self, fs)
  | Signal a =>
      match slot a self with
      | inr self' => inr (self', fs)
      | inl e => inl e
      end
  | TestNotification w =>
      match snd (send_test_notification w self) with
      | inr self' => inr (self', fs)
      | inl e => inl e
      end
  | Settings dlg accepted => inr (open_settings self dlg accepted fs)
  | Close tray_visible =>
      let '(_, self', fs', _) := closeEvent self tray_visible fs in
      inr (self', fs')
  end.

Fixpoint handle_all (evs : list event) (st : JokeNotifier * disk)
    : result (JokeNotifier * disk) :=
  match evs with
  | [] => inr st
  | ev :: rest =>
      match handle ev st with
      | inr st' => handle_all rest st'
      | inl e => inl e
      end
  end.

(** The window with its file after [__init__] and the events [evs]. *)
Definition session (fs : disk) (evs : list event)
    : result (JokeNotifier * disk) :=
  match init fs with
  | inr self => handle_all evs (self, fs)
  | inl e => inl e
  end.

(** ** Vocabulary of the further properties *)

(** Every key of the schema is present. *)
Definition has_schema (s : dict) : Prop :=
  Forall (fun key => is_Some (s !! key)) schema.

(** The texts of the button, the indicator and the tray entry say what
    [is_running] says. *)
Definition labels_agree (self : JokeNotifier) : Prop :=
  toggle_button self
  = (if is_running self then "Stop Notifications" else "Start Notifications")
  /\ status_indicator self = (if is_running self then "green" else "red")
  /\ forall label, tray_toggle_action self = Some label ->
       label = toggle_button self.

(** The calls of a notification backend and the postings of the fallback
    box among the actions of a cycle. *)
Definition is_notification (a : action) : bool :=
  match a with
  | Notify _ _ _ _ | MessageBox _ _ => true
  | _ => false
  end.

Definition handed_over (acts : list action) : list action :=
  List.filter is_notification acts.

(** Those of them that got somewhere when the thread [c] made them: the
    calls a backend took, and the posted boxes that open. *)
Definition delivered (c : caller) (acts : list action) : list action :=
  List.filter (fun a => match a with
                        | Notify _ _ _ _ => true
                        | _ => opens c a
                        end) acts.

(** A world without a network. *)
Definition offline_world : world := {|
  http := fun _ => HttpRaise (IOError "Connection refused");
  strftime := "10:15 AM";
  NOTIFICATION_SYSTEM := plyer;
  tray_icon := true;
  backend_raises := None
|}.

(** Settings that lost their categories. *)
Definition settings_without_categories : dict :=
  delete "categories" default_settings.

(** A world in which the API answers with a one-liner, and the same world
    with a notification backend that raises. *)
Definition single_answer : dict :=
  <["error" := JBool false]>
  (<["type" := JStr "single"]>
  (<["joke" := JStr "I told my computer a joke. It did not even byte."]>
  (<["category" := JStr "Programming"]>
  (<["id" := JNum 7]> ∅)))).

Definition single_world : world := {|
  http := fun _ => HttpObject single_answer;
  strftime := "10:15 AM";
  NOTIFICATION_SYSTEM := plyer;
  tray_icon := true;
  backend_raises := None
|}.

Definition broken_backend_world : world := {|
  http := fun _ => HttpObject single_answer;
  strftime := "10:15 AM";
  NOTIFICATION_SYSTEM := plyer;
  tray_icon := true;
  backend_raises := Some (IOError "no notification service")
|}.

Definition default_url : string :=
  "https://v2.jokeapi.dev/joke/Any?blacklistFlags=religious,racist,sexist,explicit&safe-mode".

(** The keys [get_settings] writes, and what it writes for the categories
    and the joke type. *)
Definition dialog_keys : list string :=
  ["frequency"; "categories"; "safe_mode"; "joke_type"; "language";
   "autostart"].

Definition chosen_categories (dlg : SettingsDialog) : list string :=
  if category_mode_any dlg then ["Any"]
  else match map fst (filter (fun cb => snd cb = true)
                        (category_checkboxes dlg)) with
       | [] => ["Misc"]
       | cs => cs
       end.

Definition chosen_joke_type (dlg : SettingsDialog) : string :=
  if joke_type_any dlg then "Any"
  else if joke_type_single dlg then "single" else "twopart".

(** Settings whose frequency is a word. *)
Definition settings_bad_frequency : dict :=
  <["frequency" := JStr "often"]> default_settings.

(** A session on a machine without a settings file: the user starts the
    poller, saves the dialog with another frequency, gets a countdown and
    stops the poller from the tray. *)
Definition empty_disk : disk :=
  {| settings_file := None; write_raises := None |}.

Definition example_session : list event :=
  [Toggle;
   Settings (dialog_opened_on 5 ["Any"] true "Any" "en" false) true;
   Signal (EmitNextJokeTime "Next joke in: 4m 59s");
   ToggleFromTray].

(** Two windows with the same running flag, control texts and settings. *)
Definition same_controls (a b : JokeNotifier) : Prop :=
  is_running a = is_running b
  /\ toggle_button a = toggle_button b
  /\ status_indicator a = status_indicator b
  /\ tray_toggle_action a = tray_toggle_action b
  /\ settings a = settings b.

(** What every session keeps. *)
Definition kept (self : JokeNotifier) : Prop :=
  labels_agree self /\ has_schema (settings self).

(** The text of a row of the list widget behind the time stamp. *)
Definition row_text (t : string) : string :=
  let joke_text := PyStr.replace (Py.LF +:+ Py.LF) " - " t in
  if (60 <? String.length joke_text)%nat
  then PyStr.slice_to joke_text 57 +:+ "..."
  else joke_text.

(** No line feed occurs in [s]. *)
Definition one_line (s : string) : Prop :=
  Py.contains_char "010"%char s = false.

(** A world whose backend is notify2, and settings whose notification
    duration is null. *)
Definition notify2_world : world := {|
  http := fun _ => HttpObject single_answer;
  strftime := "10:15 AM";
  NOTIFICATION_SYSTEM := notify2;
  tray_icon := true;
  backend_raises := None
|}.

Definition settings_null_duration : dict :=
  <["notification_duration" := JNull]> default_settings.


(** Settings whose frequency is out of the range of the floats. *)
Definition settings_huge_frequency : dict :=
  <["frequency" := JNum (2 ^ 1024)]> default_settings.


(** * Properties *)

(** ** The request *)

Lemma append_assoc (a b c : string) : (a +:+ b) +:+ c = a +:+ (b +:+ c).
Proof.
  induction a as [|x a IH]; [reflexivity|].
  change (String x ((a +:+ b) +:+ c) = String x (a +:+ (b +:+ c))).
  now rewrite IH.
Qed.

Lemma append_empty_r (a : string) : a +:+ EmptyString = a.
Proof.
  induction a as [|x a IH]; [reflexivity|].
  change (String x (a +:+ EmptyString) = String x a). now rewrite IH.
Qed.

Lemma join_items_strs (i : nat) (cs : list string) :
  PyOps.join_items i (map JStr cs) = inr cs.
Proof.
  revert i. induction cs as [|c cs IH]; intros i; simpl; [reflexivity|].
  now rewrite IH.
Qed.

Lemma build_url_fields (s : dict) cats safe jtype lang :
  url_fields s cats safe jtype lang ->
  build_url s =
    inr (base_url +:+ String.concat "," cats
         +:+ "?blacklistFlags=religious,racist,sexist,explicit"
         +:+ (if safe then "&safe-mode" else EmptyString)
         +:+ type_filter jtype +:+ lang_param lang).
Proof.
  intros (Hc & Hs & Ht & Hl).
  unfold build_url, PyOps.getitem, type_filter, lang_param.
  rewrite Hc, Hs, Ht, Hl. cbn [PyOps.join]. rewrite join_items_strs.
  cbn [Py.truthy Py.eq_str PyOps.lower].
  destruct safe, (String.eqb jtype "Any"), (String.eqb lang "en");
    cbn [negb Py.str]; rewrite ?append_assoc, ?append_empty_r; reflexivity.
Qed.

Lemma fst_bind {A B} (m : M A) (k : A -> M B) :
  fst (bind m k)
  = (fst m ++ match snd m with inr a => fst (k a) | inl _ => [] end)%list.
Proof.
  destruct m as [t [e|a]]; simpl; [now rewrite app_nil_r|].
  now destruct (k a).
Qed.

Lemma fst_try_except {A} (m : M A) (h : exn -> M A) :
  fst (try_except m h)
  = (fst m ++ match snd m with inl e => fst (h e) | inr _ => [] end)%list.
Proof.
  destruct m as [t [e|a]]; simpl; [|now rewrite app_nil_r].
  now destruct (h e).
Qed.

(** Whatever the answer, a cycle whose URL could be built starts by
    requesting exactly that URL. *)
Lemma fetch_requests (w : world) (s : dict) (u : string) :
  build_url s = inr u ->
  exists rest, fst (fetch_and_show_joke w s) = HttpGet u :: rest.
Proof.
  intros Hu. unfold fetch_and_show_joke.
  rewrite fst_try_except, fst_bind, Hu. cbn [lift fst snd].
  rewrite fst_bind. cbn [emit fst snd app]. eauto.
Qed.

(** C1, as amended: for every Settings whose categories list is exactly
    [["Any"]], the lookup path of the URL the fetch requests is the base
    endpoint followed by the category segment [Any]; the sentinel is sent
    as the segment, it is not left out. *)
Theorem any_category_request_path (w : world) (s : dict)
    (safe : bool) (jtype lang : string) :
  url_fields s ["Any"] safe jtype lang ->
  exists u rest,
    fst (fetch_and_show_joke w s) = HttpGet u :: rest
    /\ url_path u = base_url +:+ "Any".
Proof.
  intros H. pose proof (build_url_fields _ _ _ _ _ H) as Hu.
  destruct (fetch_requests w _ _ Hu) as [rest Hrest].
  eexists _, rest. split; [exact Hrest|]. reflexivity.
Qed.

Lemma any_category_request_path_witness :
  url_fields default_settings ["Any"] true "Any" "en"
  /\ exists u rest,
       fst (fetch_and_show_joke example_world default_settings)
       = HttpGet u :: rest
       /\ url_path u = base_url +:+ "Any".
Proof.
  assert (H : url_fields default_settings ["Any"] true "Any" "en")
    by (repeat split; reflexivity).
  split; [exact H|].
  exact (any_category_request_path example_world default_settings
           true "Any" "en" H).
Defined.

(** C1 as it was stated fails on the default settings, whose categories
    are [["Any"]]: the path of the requested URL is not the bare base
    endpoint, it ends in the segment [Any]. *)
Lemma any_category_path_not_bare :
  default_settings !! "categories" = Some (JList [JStr "Any"])
  /\ (exists rest,
        fst (fetch_and_show_joke example_world default_settings)
        = HttpGet
            "https://v2.jokeapi.dev/joke/Any?blacklistFlags=religious,racist,sexist,explicit&safe-mode"
          :: rest)
  /\ url_path
       "https://v2.jokeapi.dev/joke/Any?blacklistFlags=religious,racist,sexist,explicit&safe-mode"
     = "https://v2.jokeapi.dev/joke/Any"
  /\ url_path
       "https://v2.jokeapi.dev/joke/Any?blacklistFlags=religious,racist,sexist,explicit&safe-mode"
     <> base_url.
Proof.
  split; [reflexivity|]. split; [|split; [reflexivity | discriminate]].
  apply fetch_requests. reflexivity.
Qed.

(** C9: for every Settings, the requested URL carries the four fixed
    blacklist flags whether [safe_mode] is true or false, and the text that
    follows them starts with the safe-mode flag exactly when [safe_mode] is
    true; what comes after depends on the joke type and the language only. *)
Theorem blacklist_flags_and_safe_mode (w : world) (s : dict)
    (cats : list string) (safe : bool) (jtype lang : string) :
  url_fields s cats safe jtype lang ->
  exists after acts,
    fst (fetch_and_show_joke w s)
    = HttpGet (base_url +:+ String.concat "," cats
               +:+ "?blacklistFlags=religious,racist,sexist,explicit"
               +:+ after) :: acts
    /\ after = (if safe then "&safe-mode" else EmptyString)
               +:+ type_filter jtype +:+ lang_param lang
    /\ String.prefix "&safe-mode" after = safe.
Proof.
  intros H. pose proof (build_url_fields _ _ _ _ _ H) as Hu.
  destruct (fetch_requests w _ _ Hu) as [acts Hacts].
  eexists _, acts. split; [exact Hacts|]. split; [reflexivity|].
  unfold type_filter, lang_param.
  destruct safe, (String.eqb jtype "Any"), (String.eqb lang "en");
    reflexivity.
Qed.

Lemma blacklist_flags_and_safe_mode_witness :
  url_fields (<["safe_mode" := JBool false]> default_settings)
    ["Any"] false "Any" "en"
  /\ exists after acts,
       fst (fetch_and_show_joke example_world
              (<["safe_mode" := JBool false]> default_settings))
       = HttpGet (base_url +:+ String.concat "," ["Any"]
                  +:+ "?blacklistFlags=religious,racist,sexist,explicit"
                  +:+ after) :: acts
       /\ after = EmptyString +:+ type_filter "Any" +:+ lang_param "en"
       /\ String.prefix "&safe-mode" after = false.
Proof.
  assert (H : url_fields (<["safe_mode" := JBool false]> default_settings)
                ["Any"] false "Any" "en")
    by (repeat split; reflexivity).
  split; [exact H|].
  exact (blacklist_flags_and_safe_mode example_world _ ["Any"] false
           "Any" "en" H).
Defined.

(** ** The answer *)

Lemma show_notification_returns (w : world) (s : dict)
    (title message : json) :
  exists b, snd (show_notification w s title message) = inr b.
Proof.
  unfold show_notification, notification_failed.
  destruct (backend_raises w); [eexists; reflexivity|].
  destruct (NOTIFICATION_SYSTEM w), (tray_icon w);
    try destruct (PyOps.times_1000 _); eexists; reflexivity.
Qed.

(** Whichever backend is in use, and also when it raises, the last thing
    [show_notification] does is to hand over, to a backend or to the box it
    posts, the title and the message it was called with. *)
Lemma show_notification_shows (w : world) (s : dict) (title message : json) :
  exists pre shown,
    fst (show_notification w s title message) = (pre ++ [shown])%list
    /\ (shown = MessageBox title message
        \/ exists sys,
             shown = Notify sys title message
                       (PyOps.get s "notification_duration" (JNum 10))).
Proof.
  assert (Hfail : forall e,
            exists pre shown,
              fst (notification_failed title message e) = (pre ++ [shown])%list
              /\ (shown = MessageBox title message
                  \/ exists sys,
                       shown = Notify sys title message
                                 (PyOps.get s "notification_duration"
                                    (JNum 10)))).
  { intros e.
    exists [EmitStatus ("Notification error: " +:+ Py.str_exn e)],
           (MessageBox title message). split; [reflexivity | now left]. }
  assert (Hcall : forall sys,
            exists pre shown,
              [Notify sys title message
                 (PyOps.get s "notification_duration" (JNum 10))]
              = (pre ++ [shown])%list
              /\ (shown = MessageBox title message
                  \/ exists sys,
                       shown = Notify sys title message
                                 (PyOps.get s "notification_duration"
                                    (JNum 10)))).
  { intros sys. exists [], (Notify sys title message
                              (PyOps.get s "notification_duration" (JNum 10))).
    split; [reflexivity | right; eauto]. }
  unfold show_notification.
  destruct (backend_raises w) as [e|]; [apply Hfail|].
  destruct (NOTIFICATION_SYSTEM w), (tray_icon w);
    try destruct (PyOps.times_1000 _);
    first [apply Hfail | apply Hcall | idtac].
  exists [], (MessageBox title message). split; [reflexivity | now left].
Qed.

(** C4: for every successful API answer with [type] twopart, setup [S] and
    delivery [D], the joke record's text is [S], two line feeds, [D]; the
    notification is made with body [D] and with title [S] when [S] has at
    most 50 characters, and with the title Joke Time! when it has more. *)
Theorem twopart_joke (w : world) (s d : dict) (u S D : string) :
  build_url s = inr u ->
  http w u = HttpObject d ->
  Py.truthy (PyOps.get d "error" (JBool false)) = false ->
  d !! "type" = Some (JStr "twopart") ->
  d !! "setup" = Some (JStr S) ->
  d !! "delivery" = Some (JStr D) ->
  exists title,
    fst (fetch_and_show_joke w s)
    = (HttpGet u
       :: EmitAddJoke {| text := JStr (S +:+ String "010"%char
                                                (String "010"%char D));
                         category := PyOps.get d "category" (JStr EmptyString);
                         time := strftime w;
                         joke_id := PyOps.get d "id" (JStr EmptyString) |}
       :: fst (show_notification w s title (JStr D))
       ++ [EmitStatus ("Last joke sent successfully at " +:+ strftime w)])%list
    /\ ((String.length S <= 50)%nat -> title = JStr S)
    /\ ((50 < String.length S)%nat -> title = JStr "Joke Time!")
    /\ exists pre shown,
         fst (show_notification w s title (JStr D)) = (pre ++ [shown])%list
         /\ (shown = MessageBox title (JStr D)
             \/ exists sys,
                  shown = Notify sys title (JStr D)
                            (PyOps.get s "notification_duration" (JNum 10))).
Proof.
  intros Hu Hd Herr Hty Hs HD.
  exists (if 50 <? Z.of_nat (String.length S)
          then JStr "Joke Time!" else JStr S).
  split; [|split; [|split]].
  - unfold fetch_and_show_joke, PyOps.getitem.
    rewrite Hu. cbn [lift bind emit fst snd app]. rewrite Hd.
    cbn [response_json ret bind]. rewrite Herr, Hty, Hs, HD.
    cbn [Py.eq_str String.eqb Ascii.eqb Bool.eqb lift bind ret
         PyOps.len Py.str].
    destruct (show_notification_returns w s
                (if 50 <? Z.of_nat (String.length S)
                 then JStr "Joke Time!" else JStr S) (JStr D)) as [b Hb].
    destruct (show_notification w s _ (JStr D)) as [t r].
    cbn [snd] in Hb. subst r. reflexivity.
  - intros H.
    destruct (Z.ltb_spec 50 (Z.of_nat (String.length S)));
      [lia | reflexivity].
  - intros H.
    destruct (Z.ltb_spec 50 (Z.of_nat (String.length S)));
      [reflexivity | lia].
  - apply show_notification_shows.
Qed.

Lemma twopart_joke_witness :
  exists title,
    fst (fetch_and_show_joke example_world default_settings)
    = (HttpGet
         "https://v2.jokeapi.dev/joke/Any?blacklistFlags=religious,racist,sexist,explicit&safe-mode"
       :: EmitAddJoke
            {| text := JStr ("Why did the chicken cross the road?"
                             +:+ String "010"%char
                                   (String "010"%char
                                      "To get to the other side."));
               category := JStr "Misc";
               time := "10:15 AM";
               joke_id := JNum 42 |}
       :: fst (show_notification example_world default_settings title
                 (JStr "To get to the other side."))
       ++ [EmitStatus "Last joke sent successfully at 10:15 AM"])%list
    /\ title = JStr "Why did the chicken cross the road?"
    /\ String.length ("Why did the chicken cross the road?"
                      +:+ String "010"%char
                            (String "010"%char "To get to the other side."))
       = 62%nat.
Proof.
  destruct (twopart_joke example_world default_settings
              (<["error" := JBool false]>
               (<["type" := JStr "twopart"]>
               (<["setup" := JStr "Why did the chicken cross the road?"]>
               (<["delivery" := JStr "To get to the other side."]>
               (<["category" := JStr "Misc"]>
               (<["id" := JNum 42]> ∅))))))
              "https://v2.jokeapi.dev/joke/Any?blacklistFlags=religious,racist,sexist,explicit&safe-mode"
              "Why did the chicken cross the road?"
              "To get to the other side."
              ltac:(vm_compute; reflexivity) ltac:(reflexivity)
              ltac:(vm_compute; reflexivity) ltac:(vm_compute; reflexivity)
              ltac:(vm_compute; reflexivity) ltac:(vm_compute; reflexivity))
    as (title & Hacts & Hshort & _).
  exists title. split; [exact Hacts|].
  split; [apply Hshort; vm_compute; lia | reflexivity].
Defined.

(** C5: for every API answer whose body has [error] true and message [M],
    the cycle emits the status Error: [M] and nothing else after the
    request, so no joke record and no notification; handled by the window,
    it leaves the joke history as it was and shows that status. *)
Theorem api_error (w : world) (s d : dict) (u msg : string) :
  build_url s = inr u ->
  http w u = HttpObject d ->
  d !! "error" = Some (JBool true) ->
  d !! "message" = Some (JStr msg) ->
  fst (fetch_and_show_joke w s) = [HttpGet u; EmitStatus ("Error: " +:+ msg)]
  /\ fetched_joke w s = None
  /\ forall self, settings self = s ->
       exists self',
         cycle w self = inr self'
         /\ last_jokes self' = last_jokes self
         /\ status_label self' = "Error: " +:+ msg.
Proof.
  intros Hu Hd Herr Hmsg.
  assert (H : fst (fetch_and_show_joke w s)
              = [HttpGet u; EmitStatus ("Error: " +:+ msg)]).
  { unfold fetch_and_show_joke, PyOps.get.
    rewrite Hu. cbn [lift bind emit fst snd app]. rewrite Hd.
    cbn [response_json ret bind]. rewrite Herr, Hmsg. reflexivity. }
  split; [exact H|]. split.
  - unfold fetched_joke. rewrite H. reflexivity.
  - intros self <-. exists (update_status self ("Error: " +:+ msg)).
    unfold cycle. rewrite H. repeat split.
Qed.

Lemma api_error_witness :
  fst (fetch_and_show_joke failing_world default_settings)
  = [HttpGet
       "https://v2.jokeapi.dev/joke/Any?blacklistFlags=religious,racist,sexist,explicit&safe-mode";
     EmitStatus "Error: No matching joke found"]
  /\ fetched_joke failing_world default_settings = None.
Proof.
  destruct (api_error failing_world default_settings
              (<["error" := JBool true]>
               (<["message" := JStr "No matching joke found"]> ∅))
              "https://v2.jokeapi.dev/joke/Any?blacklistFlags=religious,racist,sexist,explicit&safe-mode"
              "No matching joke found"
              ltac:(vm_compute; reflexivity) ltac:(reflexivity)
              ltac:(vm_compute; reflexivity) ltac:(vm_compute; reflexivity))
    as (Hacts & Hnone & _).
  split; [exact Hacts | exact Hnone].
Defined.
(** ** The history *)

Lemma update_jokes_listbox_listable (history : list joke) :
  listable history -> snd (update_jokes_listbox history) = inr tt.
Proof.
  induction 1 as [|j history [t Ht] _ IH]; [reflexivity|].
  cbn [update_jokes_listbox]. unfold listbox_row. rewrite Ht.
  destruct (update_jokes_listbox history) as [rows r]. exact IH.
Qed.


Lemma listable_take (n : nat) (history : list joke) :
  listable history -> listable (take n history).
Proof. apply Forall_take. Qed.

Lemma add_joke_to_list_cap (self : JokeNotifier) (j : joke) (c : Z) :
  max_stored_jokes self = JNum c -> 0 <= c ->
  listable (j :: last_jokes self) ->
  exists self',
    add_joke_to_list self j = inr self'
    /\ last_jokes self' = push c (last_jokes self) j
    /\ max_stored_jokes self' = JNum c
    /\ settings self' = settings self.
Proof.
  intros Hcap Hc Hl. unfold add_joke_to_list. rewrite Hcap. cbn [Py.as_int].
  assert (E : (if c <? Z.of_nat (length (j :: last_jokes self))
               then PyOps.slice_to (j :: last_jokes self) c
               else j :: last_jokes self)
              = push c (last_jokes self) j).
  { unfold push, PyOps.slice_to.
    destruct (Z.ltb_spec c (Z.of_nat (length (j :: last_jokes self)))).
    - destruct (Z.leb_spec 0 c); [reflexivity | lia].
    - symmetry. apply take_ge. lia. }
  cbv zeta. rewrite E.
  rewrite update_jokes_listbox_listable by (now apply listable_take).
  eexists. split; [reflexivity|].
  cbn [last_jokes max_stored_jokes settings]. repeat split.
Qed.

Lemma deliver_cap (acts : list action) (self : JokeNotifier) (c : Z) :
  max_stored_jokes self = JNum c -> 0 <= c ->
  listable (last_jokes self) -> listable (added acts) ->
  exists self',
    deliver acts self = inr self'
    /\ last_jokes self' = foldl (push c) (last_jokes self) (added acts)
    /\ max_stored_jokes self' = JNum c
    /\ settings self' = settings self.
Proof.
  intros Hcap Hc. revert self Hcap.
  induction acts as [|a acts IH]; intros self Hcap Hl Ha.
  - exists self. repeat split; assumption.
  - destruct a as [u|m|m|j|sys t b d|t b]; cbn [deliver slot added omap] in *;
      try (apply IH; assumption).
    + destruct (IH (update_status self m) Hcap Hl Ha) as (s' & ? & ? & ? & ?).
      exists s'. repeat split; assumption.
    + destruct (IH (update_next_joke_time self m) Hcap Hl Ha)
        as (s' & ? & ? & ? & ?).
      exists s'. repeat split; assumption.
    + apply Forall_cons in Ha as [Hj Ha].
      destruct (add_joke_to_list_cap self j c Hcap Hc)
        as (s1 & -> & Hh & Hcap1 & Hs1); [now constructor|].
      destruct (IH s1 Hcap1) as (s' & ? & Hh' & ? & Hs');
        [rewrite Hh; apply listable_take; now constructor | exact Ha |].
      exists s'. repeat split; try assumption.
      * rewrite Hh', Hh. reflexivity.
      * congruence.
Qed.

Lemma take_app_take {A} (n : nat) (a b : list A) :
  take n (a ++ take n b) = take n (a ++ b).
Proof.
  rewrite !take_app, take_take. f_equal. f_equal. lia.
Qed.

Lemma foldl_push (c : Z) (rs h : list joke) :
  (length h <= Z.to_nat c)%nat ->
  foldl (push c) h rs = take (Z.to_nat c) (rev rs ++ h).
Proof.
  revert h. induction rs as [|r rs IH]; intros h Hh.
  - simpl. symmetry. now apply take_ge.
  - cbn [foldl]. rewrite IH.
    + unfold push. rewrite take_app_take.
      cbn [rev]. now rewrite <- app_assoc.
    + unfold push. rewrite length_take. lia.
Qed.

(** A cycle adds at most one record. *)
Lemma fetch_adds_at_most_one (w : world) (s : dict) :
  added (fst (fetch_and_show_joke w s)) = option_list (fetched_joke w s).
Proof.
  unfold fetched_joke. fold (added (fst (fetch_and_show_joke w s))).
  assert (H : (length (added (fst (fetch_and_show_joke w s))) <= 1)%nat).
  { unfold fetch_and_show_joke, response_json, show_notification,
      notification_failed, PyOps.getitem, PyOps.len.
    unfold try_except, bind, lift, emit, ret, raise.
    repeat (case_match; simplify_eq); cbn; lia. }
  destruct (added (fst (fetch_and_show_joke w s))) as [|j [|j' l]];
    [reflexivity | reflexivity | simpl in H; lia].
Qed.

Lemma listable_foldl_push (c : Z) (rs h : list joke) :
  listable h -> listable rs -> listable (foldl (push c) h rs).
Proof.
  revert h. induction rs as [|r rs IH]; intros h Hh Hrs; [exact Hh|].
  apply Forall_cons in Hrs as [Hr Hrs]. cbn [foldl]. apply IH; [|exact Hrs].
  apply listable_take. now constructor.
Qed.

Lemma cycles_history (ws : list world) (self : JokeNotifier) (c : Z) :
  max_stored_jokes self = JNum c -> 0 <= c ->
  listable (last_jokes self) ->
  listable (omap (fun w => fetched_joke w (settings self)) ws) ->
  exists self',
    cycles ws self = inr self'
    /\ last_jokes self'
       = foldl (push c) (last_jokes self)
           (omap (fun w => fetched_joke w (settings self)) ws)
    /\ max_stored_jokes self' = JNum c
    /\ settings self' = settings self.
Proof.
  intros Hcap Hc. revert self Hcap.
  induction ws as [|w ws IH]; intros self Hcap Hl Hws.
  - exists self. repeat split; assumption.
  - cbn [cycles]. unfold cycle. cbn [omap list_omap] in Hws.
    assert (Hw : listable (added (fst (fetch_and_show_joke w (settings self))))
                 /\ listable (omap (fun w => fetched_joke w (settings self)) ws)).
    { rewrite fetch_adds_at_most_one.
      destruct (fetched_joke w (settings self)); cbn [option_list].
      - apply Forall_cons in Hws as [Hj Hws].
        split; [constructor; [exact Hj | constructor] | exact Hws].
      - split; [constructor | exact Hws]. }
    destruct Hw as [Hw Hrest].
    destruct (deliver_cap (fst (fetch_and_show_joke w (settings self)))
                self c Hcap Hc Hl Hw) as (s1 & -> & Hh & Hcap1 & Hs1).
    destruct (IH s1 Hcap1) as (s' & Hrun & Hh' & Hcap' & Hs').
    { rewrite Hh. now apply listable_foldl_push. }
    { now rewrite Hs1. }
    exists s'. split; [exact Hrun|]. split; [|split; congruence].
    rewrite Hh', Hh, Hs1, fetch_adds_at_most_one. cbn [omap list_omap].
    destruct (fetched_joke w (settings self)); reflexivity.
Qed.

(** C6, on the code: the bound of the history is the attribute
    [max_stored_jokes], and [load_settings] does not bring it up to the
    [max_history] it has just merged, as [open_settings] does.  With a
    settings file that sets [max_history] to 5, the window starts with
    [max_history] 5 in its settings and an empty history; six successful
    cycles later the history has six records, one more than [max_history],
    so the append has not preserved the bound. *)
Theorem loaded_max_history_not_enforced :
  exists self self',
    init disk_with_max_history_5 = inr self
    /\ last_jokes self = []
    /\ settings self !! "max_history" = Some (JNum 5)
    /\ Forall (fun w => is_Some (fetched_joke w (settings self)))
         (replicate 6 example_world)
    /\ cycles (replicate 6 example_world) self = inr self'
    /\ settings self' !! "max_history" = Some (JNum 5)
    /\ length (last_jokes self') = 6%nat
    /\ last_jokes self'
       = replicate 6
           {| text := JStr ("Why did the chicken cross the road?"
                            +:+ String "010"%char
                                  (String "010"%char
                                     "To get to the other side."));
              category := JStr "Misc";
              time := "10:15 AM";
              joke_id := JNum 42 |}.
Proof.
  destruct (init disk_with_max_history_5) as [e|self] eqn:Hinit;
    [vm_compute in Hinit; discriminate Hinit|].
  assert (Hself : self
                  = with_tray
                      (with_settings constructed
                         (<["max_history" := JNum 5]> ∅ ∪ default_settings))
                      "Start Notifications").
  { unfold init, load_settings, load_settings_try in Hinit.
    cbn [disk_with_max_history_5 settings_file] in Hinit. now simplify_eq. }
  destruct (cycles (replicate 6 example_world) self) as [e|self'] eqn:Hrun;
    rewrite Hself in Hrun; vm_compute in Hrun; [discriminate Hrun|].
  exists self, self'. split; [reflexivity|].
  injection Hrun as <-. rewrite Hself.
  split; [reflexivity|]. split; [vm_compute; reflexivity|].
  split; [apply Forall_replicate; eexists; vm_compute; reflexivity|].
  repeat split; vm_compute; reflexivity.
Qed.

(** X25: what bounds the history is the cap [max_stored_jokes].  Starting
    from an empty history, after N cycles that each fetched a joke with a
    string as its text, N greater than the cap, the history has exactly
    cap records, the most recent ones, most recent first; and every append
    of a record to a history whose texts are strings leaves the history no
    longer than the cap. *)
Theorem history_bounded (self : JokeNotifier) (cap : Z) (ws : list world) :
  max_stored_jokes self = JNum cap -> 0 <= cap ->
  last_jokes self = [] ->
  Forall (fun w => exists j t,
            fetched_joke w (settings self) = Some j /\ text j = JStr t) ws ->
  cap < Z.of_nat (length ws) ->
  (exists self' records,
     cycles ws self = inr self'
     /\ Forall2 (fun w j => fetched_joke w (settings self) = Some j) ws records
     /\ last_jokes self' = take (Z.to_nat cap) (rev records)
     /\ Z.of_nat (length (last_jokes self')) = cap)
  /\ (forall (self0 : JokeNotifier) (j : joke),
        max_stored_jokes self0 = JNum cap ->
        listable (j :: last_jokes self0) ->
        exists self1,
          add_joke_to_list self0 j = inr self1
          /\ Z.of_nat (length (last_jokes self1)) <= cap).
Proof.
  intros Hcap Hc Hempty Hall Hn. split.
  - assert (HF : Forall2 (fun w j => fetched_joke w (settings self) = Some j)
                   ws (omap (fun w => fetched_joke w (settings self)) ws)
                 /\ listable (omap (fun w => fetched_joke w (settings self))
                                ws)).
    { clear -Hall.
      induction Hall as [|w ws (j & t & Hj & Ht) _ [IH1 IH2]];
        cbn [omap list_omap].
      - split; constructor.
      - rewrite Hj. split; constructor; eauto. }
    destruct HF as [HF Hlist].
    destruct (cycles_history ws self cap Hcap Hc) as (self' & Hrun & Hh & _);
      [rewrite Hempty; constructor | exact Hlist |].
    exists self', (omap (fun w => fetched_joke w (settings self)) ws).
    split; [exact Hrun|]. split; [exact HF|].
    rewrite Hh, Hempty, foldl_push by (simpl; lia). rewrite app_nil_r.
    split; [reflexivity|].
    rewrite length_take, length_rev, <- (Forall2_length _ _ _ HF). lia.
  - intros self0 j Hcap0 Hl.
    destruct (add_joke_to_list_cap self0 j cap Hcap0 Hc Hl)
      as (self1 & Hadd & Hh & _).
    exists self1. split; [exact Hadd|]. rewrite Hh. unfold push.
    rewrite length_take. lia.
Qed.

Lemma history_bounded_witness :
  exists self',
    cycles (replicate 16 example_world) constructed = inr self'
    /\ Z.of_nat (length (last_jokes self')) = 15.
Proof.
  destruct (history_bounded constructed 15 (replicate 16 example_world))
    as [(self' & records & Hrun & _ & _ & Hlen) _].
  - reflexivity.
  - lia.
  - reflexivity.
  - apply Forall_replicate. eexists _, _. vm_compute. split; reflexivity.
  - vm_compute. reflexivity.
  - exists self'. split; [exact Hrun | exact Hlen].
Defined.

(** ** The settings file *)

Lemma load_settings_object (self : JokeNotifier) (fs : disk) (d : dict) :
  settings_file fs = Some (FileObject d) ->
  load_settings self fs = inr (with_settings self (d ∪ settings self)).
Proof. intros H. unfold load_settings, load_settings_try. now rewrite H. Qed.

Lemma init_object (fs : disk) (d : dict) :
  settings_file fs = Some (FileObject d) ->
  init fs
  = inr (with_tray (with_settings constructed (d ∪ default_settings))
           "Start Notifications").
Proof.
  intros H. unfold init. now rewrite (load_settings_object constructed fs d H).
Qed.

Lemma update_lookup (d old : dict) (key : string) :
  (d ∪ old) !! key
  = match d !! key with Some v => Some v | None => old !! key end.
Proof.
  rewrite lookup_union. destruct (d !! key), (old !! key); reflexivity.
Qed.

(** C7: for every Settings value, saving it and then loading yields
    settings equal to it on every field of the schema. *)
Theorem save_then_load (self loader : JokeNotifier) (fs : disk) :
  write_raises fs = None ->
  Forall (fun key => is_Some (settings self !! key)) schema ->
  exists loader',
    load_settings loader (snd (save_settings_to_file self fs)) = inr loader'
    /\ Forall (fun key => settings loader' !! key = settings self !! key)
         schema
    /\ (forall key, is_Some (settings self !! key) ->
          settings loader' !! key = settings self !! key)
    /\ (dom (settings loader) ⊆ dom (settings self) ->
        settings loader' = settings self).
Proof.
  intros Hw Hs. unfold save_settings_to_file. rewrite Hw. cbn [snd].
  eexists. split; [apply load_settings_object; reflexivity|].
  cbn [with_settings settings].
  assert (Hkey : forall key, is_Some (settings self !! key) ->
            (settings self ∪ settings loader) !! key = settings self !! key).
  { intros key [v Hv]. rewrite update_lookup, Hv. reflexivity. }
  split; [|split; [exact Hkey|]].
  - eapply Forall_impl; [exact Hs|]. exact Hkey.
  - intros Hdom. apply map_eq. intros key. rewrite update_lookup.
    destruct (settings self !! key) as [v|] eqn:Hv; [reflexivity|].
    apply not_elem_of_dom. intros Hin. apply Hdom in Hin.
    apply elem_of_dom in Hin. rewrite Hv in Hin. now destruct Hin.
Qed.

Lemma save_then_load_witness :
  exists loader',
    load_settings constructed
      (snd (save_settings_to_file
              (with_settings constructed
                 (<["frequency" := JNum 5]> default_settings))
              {| settings_file := None; write_raises := None |}))
    = inr loader'
    /\ settings loader' !! "frequency" = Some (JNum 5).
Proof.
  destruct (save_then_load
              (with_settings constructed
                 (<["frequency" := JNum 5]> default_settings))
              constructed
              {| settings_file := None; write_raises := None |})
    as (loader' & Hload & _ & Hkey & _).
  - reflexivity.
  - repeat constructor; eexists; vm_compute; reflexivity.
  - exists loader'. split; [exact Hload|].
    rewrite Hkey; [vm_compute; reflexivity|].
    eexists; vm_compute; reflexivity.
Defined.

(** C8: [load_settings] never raises, whatever the file holds.  Called by
    the constructor, it leaves the defaults in place, and the status at
    Ready to start, when the file is missing; when the file cannot be read
    or parsed it keeps the defaults and puts the error into the status
    label; and when the file holds an object it puts the keys of the file
    over the defaults, the other keys keeping their default values.  A
    file whose JSON is not an object is merged as far as [dict.update]
    gets, and the error it ends in, if any, goes to the status label.  In
    every case the running flag, the history and its cap stay as the
    constructor set them. *)
Theorem load_settings_total (fs : disk) :
  (forall self, exists self', load_settings self fs = inr self')
  /\ exists self',
       load_settings constructed fs = inr self'
       /\ is_running self' = false
       /\ last_jokes self' = []
       /\ max_stored_jokes self' = JNum 15
       /\ match settings_file fs with
          | None =>
              settings self' = default_settings
              /\ status_label self' = "Ready to start"
          | Some (FileBroken e) =>
              settings self' = default_settings
              /\ status_label self'
                 = "Error loading settings: " +:+ Py.str_exn e
          | Some (FileObject d) =>
              (forall key,
                 settings self' !! key
                 = match d !! key with
                   | Some v => Some v
                   | None => default_settings !! key
                   end)
              /\ status_label self' = "Ready to start"
          | Some (FileValue v) =>
              settings self' = fst (PyOps.update default_settings v)
              /\ status_label self'
                 = match snd (PyOps.update default_settings v) with
                   | None => "Ready to start"
                   | Some e => "Error loading settings: " +:+ Py.str_exn e
                   end
          end.
Proof.
  split.
  - intros self. unfold load_settings.
    destruct (load_settings_try self fs) as [self' [e|]]; eauto.
  - unfold load_settings, load_settings_try.
    destruct (settings_file fs) as [[d|v|e]|].
    + eexists. split; [reflexivity|]. repeat split.
      intros key. cbn [with_settings settings constructed].
      apply update_lookup.
    + change (settings constructed) with default_settings.
      destruct (PyOps.update default_settings v) as [merged [e|]];
        eexists; (split; [reflexivity|]); repeat split.
    + eexists. split; [reflexivity|]. repeat split.
    + eexists. split; [reflexivity|]. repeat split.
Qed.

(** ** The cap of the history *)

Lemma get_settings_max_history (current : dict) (dlg : SettingsDialog) :
  get_settings current dlg !! "max_history" = current !! "max_history".
Proof.
  unfold get_settings.
  repeat (case_match; rewrite ?lookup_insert_ne by discriminate);
    reflexivity.
Qed.

Lemma open_settings_cap (self : JokeNotifier) (dlg : SettingsDialog)
    (fs : disk) :
  max_stored_jokes (fst (open_settings self dlg true fs))
  = PyOps.get (settings self) "max_history" (JNum 15).
Proof.
  unfold open_settings, save_settings_to_file.
  repeat case_match; simplify_eq; cbn [fst max_stored_jokes update_status
    start_notifications stop_notifications];
    unfold PyOps.get; now rewrite get_settings_max_history.
Qed.



(** ** Start and stop *)

Lemma run_cons (k : tick) (ks : list tick) (b : bool) (s : dict) (t : thread) :
  run (k :: ks) b s t
  = (fst (run ks b s (fst (step k b s t))),
     (snd (step k b s t) ++ snd (run ks b s (fst (step k b s t))))%list).
Proof.
  cbn [run]. destruct (step k b s t) as [t1 a1]. cbn [fst snd].
  destruct (run ks b s t1) as [t2 a2]. reflexivity.
Qed.

Section StopLatency.

Variable s : dict.














End StopLatency.




(** C2, as amended: when [start_notifications] is invoked while the poller
    is Running, the state stays Running but one more polling loop is
    started, and that loop begins with a fetch-and-notify cycle.  The guard
    is in [toggle_notifications]: it invokes start only when the poller is
    Stopped, and on a Running poller it stops and starts no loop. *)
Theorem start_while_running (self : JokeNotifier) :
  is_running self = true ->
  is_running (start_notifications self) = true
  /\ joke_threads (start_notifications self)
     = (joke_threads self ++ [new_thread])%list
  /\ (forall k running s,
        step k running s new_thread
        = (goto new_thread L320,
           fst (fetch_and_show_joke (outside k) s)))
  /\ toggle_notifications self = stop_notifications self
  /\ joke_threads (toggle_notifications self) = joke_threads self
  /\ is_running (toggle_notifications self) = false.
Proof.
  intros Hrun. unfold toggle_notifications. rewrite Hrun.
  repeat split.
Qed.

Lemma start_while_running_witness :
  joke_threads (start_notifications (start_notifications constructed))
  = [new_thread; new_thread]
  /\ joke_threads (toggle_notifications (start_notifications constructed))
     = [new_thread].
Proof.
  destruct (start_while_running (start_notifications constructed)
              ltac:(reflexivity)) as (_ & Hth & _ & _ & Htog & _).
  split; [exact Hth | exact Htog].
Defined.

(** C2 as it was stated fails: on a window that is Running with one polling
    loop, [start_notifications] is not a no-op, it leaves two loops, and the
    first step of the new one is a fetch cycle that sends a request. *)
Lemma start_while_running_spawns :
  is_running (start_notifications constructed) = true
  /\ joke_threads (start_notifications constructed) = [new_thread]
  /\ joke_threads (start_notifications (start_notifications constructed))
     = [new_thread; new_thread]
  /\ start_notifications (start_notifications constructed)
     <> start_notifications constructed
  /\ snd (step {| clock := 0%Q; outside := example_world |} true
            (settings (start_notifications (start_notifications constructed)))
            new_thread)
     = [HttpGet
          "https://v2.jokeapi.dev/joke/Any?blacklistFlags=religious,racist,sexist,explicit&safe-mode";
        EmitAddJoke
          {| text := JStr ("Why did the chicken cross the road?"
                           +:+ Py.LF +:+ Py.LF
                           +:+ "To get to the other side.");
             category := JStr "Misc";
             time := "10:15 AM";
             joke_id := JNum 42 |};
        Notify plyer (JStr "Why did the chicken cross the road?")
          (JStr "To get to the other side.") (JNum 10);
        EmitStatus "Last joke sent successfully at 10:15 AM"].
Proof.
  split; [reflexivity|]. split; [reflexivity|]. split; [reflexivity|].
  split.
  - intros H. apply (f_equal joke_threads) in H. discriminate H.
  - vm_compute. reflexivity.
Qed.

(** * Further properties *)

(** ** Cycles that fail *)

(** Unfolds a cycle along the equations [Hu] for the URL and [Hd] for the
    answer. *)
Ltac fetch_with Hu Hd :=
  unfold fetch_and_show_joke, PyOps.getitem, PyOps.get;
  rewrite Hu; cbn [lift bind emit fst snd app]; rewrite Hd;
  cbn [response_json ret raise bind try_except app].

(** What the window is left with after a cycle that only reported [msg]. *)
Ltac status_only Hacts :=
  let self := fresh "self" in
  intros self <-; eexists; unfold cycle; rewrite Hacts;
  split; [reflexivity | split; reflexivity].

(** X1: when the request URL cannot be built from the settings, because a
    key it needs is missing or a value has the wrong type, the cycle sends
    no request and adds no record: it only reports the text of the
    exception.  Settings without [categories] are reported as
    Error: 'categories'. *)
Theorem url_failure_reported (w : world) (s : dict) (e : exn) :
  build_url s = inl e ->
  fetch_and_show_joke w s
  = ([EmitStatus ("Error: " +:+ Py.str_exn e)], inr tt)
  /\ (s !! "categories" = None -> e = KeyError "categories")
  /\ forall self, settings self = s ->
       exists self',
         cycle w self = inr self'
         /\ last_jokes self' = last_jokes self
         /\ status_label self' = "Error: " +:+ Py.str_exn e.
Proof.
  intros Hu.
  assert (H : fetch_and_show_joke w s
              = ([EmitStatus ("Error: " +:+ Py.str_exn e)], inr tt)).
  { unfold fetch_and_show_joke. rewrite Hu. reflexivity. }
  split; [exact H|]. split.
  - intros Hc. unfold build_url, PyOps.getitem in Hu. rewrite Hc in Hu.
    congruence.
  - apply (f_equal fst) in H. cbn [fst] in H. status_only H.
Qed.

Lemma url_failure_reported_witness :
  fetch_and_show_joke example_world settings_without_categories
  = ([EmitStatus "Error: 'categories'"], inr tt).
Proof.
  destruct (url_failure_reported example_world settings_without_categories
              (KeyError "categories") ltac:(vm_compute; reflexivity))
    as (H & _). exact H.
Defined.

(** X2: when the request raises, or its body is not JSON, or the JSON is
    not an object, the cycle reports the text of the exception after the
    request and does nothing else; the history keeps its records. *)
Theorem no_answer_reported (w : world) (s : dict) (u : string) :
  build_url s = inr u ->
  (forall e, http w u = HttpRaise e ->
     fetch_and_show_joke w s
     = ([HttpGet u; EmitStatus ("Error: " +:+ Py.str_exn e)], inr tt))
  /\ (forall v, http w u = HttpValue v ->
        fetch_and_show_joke w s
        = ([HttpGet u;
            EmitStatus ("Error: '" +:+ Py.type_name v
                        +:+ "' object has no attribute 'get'")], inr tt))
  /\ forall self, settings self = s ->
       (forall d, http w u <> HttpObject d) ->
       exists self',
         cycle w self = inr self' /\ last_jokes self' = last_jokes self.
Proof.
  intros Hu.
  assert (H1 : forall e, http w u = HttpRaise e ->
     fetch_and_show_joke w s
     = ([HttpGet u; EmitStatus ("Error: " +:+ Py.str_exn e)], inr tt)).
  { intros e Hd. fetch_with Hu Hd. reflexivity. }
  assert (H2 : forall v, http w u = HttpValue v ->
        fetch_and_show_joke w s
        = ([HttpGet u;
            EmitStatus ("Error: '" +:+ Py.type_name v
                        +:+ "' object has no attribute 'get'")], inr tt)).
  { intros v Hd. fetch_with Hu Hd. reflexivity. }
  split; [exact H1|]. split; [exact H2|].
  intros self <- Hno. unfold cycle.
  destruct (http w u) as [e|d|v] eqn:Hd.
  - rewrite (H1 e eq_refl). eexists. split; reflexivity.
  - now destruct (Hno d).
  - rewrite (H2 v eq_refl). eexists. split; reflexivity.
Qed.

Lemma no_answer_reported_witness :
  fetch_and_show_joke offline_world default_settings
  = ([HttpGet
        "https://v2.jokeapi.dev/joke/Any?blacklistFlags=religious,racist,sexist,explicit&safe-mode";
      EmitStatus "Error: Connection refused"], inr tt).
Proof.
  destruct (no_answer_reported offline_world default_settings
              "https://v2.jokeapi.dev/joke/Any?blacklistFlags=religious,racist,sexist,explicit&safe-mode"
              ltac:(vm_compute; reflexivity)) as (H & _).
  exact (H (IOError "Connection refused") eq_refl).
Defined.

(** X3: an answer whose [error] flag is truthy in Python's sense, whatever
    its type, ends the cycle with the status Error: followed by the
    [message] as [str] formats it, and by Unknown error when the answer
    has no [message]. *)
Theorem error_flag_reported (w : world) (s d : dict) (u : string) :
  build_url s = inr u ->
  http w u = HttpObject d ->
  Py.truthy (PyOps.get d "error" (JBool false)) = true ->
  fetch_and_show_joke w s
  = ([HttpGet u;
      EmitStatus ("Error: "
                  +:+ Py.str (PyOps.get d "message" (JStr "Unknown error")))],
     inr tt)
  /\ (d !! "message" = None ->
      fetch_and_show_joke w s
      = ([HttpGet u; EmitStatus "Error: Unknown error"], inr tt)).
Proof.
  intros Hu Hd Herr.
  assert (H : fetch_and_show_joke w s
    = ([HttpGet u;
        EmitStatus ("Error: "
                    +:+ Py.str (PyOps.get d "message" (JStr "Unknown error")))],
       inr tt)).
  { unfold PyOps.get in Herr. fetch_with Hu Hd. rewrite Herr. reflexivity. }
  split; [exact H|]. intros Hm. rewrite H. unfold PyOps.get. rewrite Hm.
  reflexivity.
Qed.

Lemma error_flag_reported_witness :
  fetch_and_show_joke
    {| http := fun _ => HttpObject (<["error" := JNum 1]> ∅);
       strftime := "10:15 AM"; NOTIFICATION_SYSTEM := plyer;
       tray_icon := true; backend_raises := None |}
    default_settings
  = ([HttpGet
        "https://v2.jokeapi.dev/joke/Any?blacklistFlags=religious,racist,sexist,explicit&safe-mode";
      EmitStatus "Error: Unknown error"], inr tt).
Proof.
  destruct (error_flag_reported
              {| http := fun _ => HttpObject (<["error" := JNum 1]> ∅);
                 strftime := "10:15 AM"; NOTIFICATION_SYSTEM := plyer;
                 tray_icon := true; backend_raises := None |}
              default_settings (<["error" := JNum 1]> ∅)
              "https://v2.jokeapi.dev/joke/Any?blacklistFlags=religious,racist,sexist,explicit&safe-mode"
              ltac:(vm_compute; reflexivity) ltac:(reflexivity)
              ltac:(vm_compute; reflexivity)) as (_ & H).
  apply H. vm_compute. reflexivity.
Defined.

(** X4: an answer without error that lacks the field its type needs is
    reported as Error: followed by the quoted name of the field, with no
    record and no notification: [type] itself, [joke] for a single joke,
    [setup] and then [delivery] for any other type. *)
Theorem missing_field_reported (w : world) (s d : dict) (u : string) :
  build_url s = inr u ->
  http w u = HttpObject d ->
  Py.truthy (PyOps.get d "error" (JBool false)) = false ->
  (d !! "type" = None ->
   fetch_and_show_joke w s
   = ([HttpGet u; EmitStatus "Error: 'type'"], inr tt))
  /\ (d !! "type" = Some (JStr "single") -> d !! "joke" = None ->
      fetch_and_show_joke w s
      = ([HttpGet u; EmitStatus "Error: 'joke'"], inr tt))
  /\ (forall ty, d !! "type" = Some ty -> Py.eq_str ty "single" = false ->
      d !! "setup" = None ->
      fetch_and_show_joke w s
      = ([HttpGet u; EmitStatus "Error: 'setup'"], inr tt))
  /\ (forall ty setup, d !! "type" = Some ty ->
      Py.eq_str ty "single" = false ->
      d !! "setup" = Some setup -> d !! "delivery" = None ->
      fetch_and_show_joke w s
      = ([HttpGet u; EmitStatus "Error: 'delivery'"], inr tt)).
Proof.
  intros Hu Hd Herr. unfold PyOps.get in Herr.
  split; [|split; [|split]].
  - intros Hty. fetch_with Hu Hd. rewrite Herr, Hty. reflexivity.
  - intros Hty Hj. fetch_with Hu Hd. rewrite Herr, Hty, Hj. reflexivity.
  - intros ty Hty Hns Hs. fetch_with Hu Hd. rewrite Herr, Hty. cbn [lift bind].
    rewrite Hns, Hs. reflexivity.
  - intros ty setup Hty Hns Hs HD. fetch_with Hu Hd. rewrite Herr, Hty.
    cbn [lift bind]. rewrite Hns, Hs, HD. reflexivity.
Qed.

Lemma missing_field_reported_witness :
  fetch_and_show_joke
    {| http := fun _ =>
         HttpObject (<["type" := JStr "twopart"]>
                    (<["setup" := JStr "Knock knock."]> ∅));
       strftime := "10:15 AM"; NOTIFICATION_SYSTEM := plyer;
       tray_icon := true; backend_raises := None |}
    default_settings
  = ([HttpGet
        "https://v2.jokeapi.dev/joke/Any?blacklistFlags=religious,racist,sexist,explicit&safe-mode";
      EmitStatus "Error: 'delivery'"], inr tt).
Proof.
  destruct (missing_field_reported
              {| http := fun _ =>
                   HttpObject (<["type" := JStr "twopart"]>
                              (<["setup" := JStr "Knock knock."]> ∅));
                 strftime := "10:15 AM"; NOTIFICATION_SYSTEM := plyer;
                 tray_icon := true; backend_raises := None |}
              default_settings
              (<["type" := JStr "twopart"]>
               (<["setup" := JStr "Knock knock."]> ∅))
              "https://v2.jokeapi.dev/joke/Any?blacklistFlags=religious,racist,sexist,explicit&safe-mode"
              ltac:(vm_compute; reflexivity) ltac:(reflexivity)
              ltac:(vm_compute; reflexivity)) as (_ & _ & _ & H).
  apply (H (JStr "twopart") (JStr "Knock knock.")); vm_compute; reflexivity.
Defined.

(** ** Cycles that succeed *)

Lemma one_liner_actions (w : world) (s d : dict) (u X : string) :
  build_url s = inr u ->
  http w u = HttpObject d ->
  Py.truthy (PyOps.get d "error" (JBool false)) = false ->
  d !! "type" = Some (JStr "single") ->
  d !! "joke" = Some (JStr X) ->
  fetch_and_show_joke w s
  = ((HttpGet u
      :: EmitAddJoke {| text := JStr X;
                        category := PyOps.get d "category" (JStr EmptyString);
                        time := strftime w;
                        joke_id := PyOps.get d "id" (JStr EmptyString) |}
      :: fst (show_notification w s (JStr "Joke Time!") (JStr X))
      ++ [EmitStatus ("Last joke sent successfully at " +:+ strftime w)])%list,
     inr tt).
Proof.
  intros Hu Hd Herr Hty Hj. unfold PyOps.get in Herr.
  fetch_with Hu Hd. rewrite Herr, Hty, Hj.
  cbn [Py.eq_str String.eqb Ascii.eqb Bool.eqb lift bind ret].
  destruct (show_notification_returns w s (JStr "Joke Time!") (JStr X))
    as [b Hb].
  unfold PyOps.get.
  destruct (show_notification w s (JStr "Joke Time!") (JStr X)) as [t r].
  cbn [snd] in Hb. subst r. reflexivity.
Qed.

(** X5: for a successful answer of type single with joke [X], the record's
    text is [X], and the notification is shown with the title Joke Time!
    and the body [X]; the cycle ends with the success status that carries
    the time stamp of the record. *)
Theorem single_joke (w : world) (s d : dict) (u X : string) :
  build_url s = inr u ->
  http w u = HttpObject d ->
  Py.truthy (PyOps.get d "error" (JBool false)) = false ->
  d !! "type" = Some (JStr "single") ->
  d !! "joke" = Some (JStr X) ->
  fst (fetch_and_show_joke w s)
  = (HttpGet u
     :: EmitAddJoke {| text := JStr X;
                       category := PyOps.get d "category" (JStr EmptyString);
                       time := strftime w;
                       joke_id := PyOps.get d "id" (JStr EmptyString) |}
     :: fst (show_notification w s (JStr "Joke Time!") (JStr X))
     ++ [EmitStatus ("Last joke sent successfully at " +:+ strftime w)])%list
  /\ exists pre shown,
       fst (show_notification w s (JStr "Joke Time!") (JStr X))
       = (pre ++ [shown])%list
       /\ (shown = MessageBox (JStr "Joke Time!") (JStr X)
           \/ exists sys,
                shown = Notify sys (JStr "Joke Time!") (JStr X)
                          (PyOps.get s "notification_duration" (JNum 10))).
Proof.
  intros Hu Hd Herr Hty Hj.
  rewrite (one_liner_actions w s d u X Hu Hd Herr Hty Hj).
  split; [reflexivity | apply show_notification_shows].
Qed.



(** ** Every cycle *)

(** X7: [fetch_and_show_joke] never raises, whatever the settings and
    whatever the outside world does, and the last thing every cycle does is
    to emit a status. *)
Theorem fetch_never_raises (w : world) (s : dict) :
  snd (fetch_and_show_joke w s) = inr tt
  /\ exists msg, last (fst (fetch_and_show_joke w s)) = Some (EmitStatus msg).
Proof.
  unfold fetch_and_show_joke, response_json, show_notification,
    notification_failed, PyOps.getitem, PyOps.len.
  unfold try_except, bind, lift, emit, ret, raise.
  repeat (case_match; simplify_eq); cbn;
    (split; [reflexivity | eexists; reflexivity]).
Qed.

(** X8: a cycle emits a record exactly when it goes on to hand the joke
    over, to a notification backend or to the fallback box it posts, and it
    does each at most once.  What is delivered has been recorded; the
    converse fails, because a box posted from the worker thread does not
    open. *)
Theorem record_iff_notification (w : world) (s : dict) :
  length (added (fst (fetch_and_show_joke w s)))
  = length (handed_over (fst (fetch_and_show_joke w s)))
  /\ (length (added (fst (fetch_and_show_joke w s))) <= 1)%nat
  /\ (length (delivered worker_thread (fst (fetch_and_show_joke w s)))
      <= length (added (fst (fetch_and_show_joke w s))))%nat.
Proof.
  unfold fetch_and_show_joke, response_json, show_notification,
    notification_failed, PyOps.getitem, PyOps.len.
  unfold try_except, bind, lift, emit, ret, raise.
  repeat (case_match; simplify_eq); cbn; repeat split; try lia;
    match goal with
    | H1 : Py.eq_str ?j "single" = true,
      H2 : Py.eq_str ?j "twopart" = true |- _ =>
        destruct j; try discriminate H1;
        apply String.eqb_eq in H1; apply String.eqb_eq in H2; congruence
    end.
Qed.

Lemma single_joke_witness :
  fst (fetch_and_show_joke single_world default_settings)
  = [HttpGet default_url;
     EmitAddJoke
       {| text := JStr "I told my computer a joke. It did not even byte.";
          category := JStr "Programming";
          time := "10:15 AM";
          joke_id := JNum 7 |};
     Notify plyer (JStr "Joke Time!")
       (JStr "I told my computer a joke. It did not even byte.") (JNum 10);
     EmitStatus "Last joke sent successfully at 10:15 AM"].
Proof.
  destruct (single_joke single_world default_settings single_answer
              default_url "I told my computer a joke. It did not even byte."
              ltac:(vm_compute; reflexivity) ltac:(reflexivity)
              ltac:(vm_compute; reflexivity) ltac:(vm_compute; reflexivity)
              ltac:(vm_compute; reflexivity)) as (H & _).
  exact H.
Defined.

(** ** The cap of the history, out of range *)

(** X9: with a negative cap every append cuts the history with Python's
    negative slice bound: the new record goes in front and as many records
    as the cap is below zero are dropped from the end, so the history never
    grows and an empty history stays empty.  The texts of the records are
    strings, so that the refresh of the list widget goes through. *)
Theorem negative_cap_never_grows (self : JokeNotifier) (j : joke) (c : Z) :
  max_stored_jokes self = JNum c -> c < 0 ->
  listable (j :: last_jokes self) ->
  exists self',
    add_joke_to_list self j = inr self'
    /\ last_jokes self'
       = take (Z.to_nat (Z.of_nat (length (last_jokes self)) + 1 + c))
           (j :: last_jokes self)
    /\ (length (last_jokes self') <= length (last_jokes self))%nat
    /\ (last_jokes self = [] -> last_jokes self' = []).
Proof.
  intros Hcap Hc Hl. unfold add_joke_to_list. rewrite Hcap. cbn [Py.as_int].
  assert (E : (c <? Z.of_nat (length (j :: last_jokes self))) = true)
    by (apply Z.ltb_lt; cbn [length]; lia).
  cbv zeta. rewrite E. unfold PyOps.slice_to.
  assert (E' : (0 <=? c) = false) by (apply Z.leb_gt; lia).
  rewrite E'. cbn [length].
  replace (Z.of_nat (S (length (last_jokes self))) + c)
    with (Z.of_nat (length (last_jokes self)) + 1 + c) by lia.
  rewrite update_jokes_listbox_listable by (now apply listable_take).
  eexists. split; [reflexivity|]. cbn [last_jokes].
  split; [reflexivity|]. split.
  - rewrite length_take. lia.
  - intros ->. cbn [length].
    replace (Z.to_nat (Z.of_nat 0 + 1 + c)) with 0%nat by lia. reflexivity.
Qed.

Lemma negative_cap_never_grows_witness :
  exists self',
    add_joke_to_list
      {| is_running := false; joke_threads := []; last_jokes := [];
         max_stored_jokes := JNum (-1); settings := default_settings;
         status_label := "Ready to start"; next_joke_label := EmptyString;
         toggle_button := "Start Notifications"; status_indicator := "red";
         tray_toggle_action := None |}
      {| text := JStr "a"; category := JStr "Misc"; time := "10:15 AM";
         joke_id := JNum 1 |}
    = inr self'
    /\ last_jokes self' = [].
Proof.
  destruct (negative_cap_never_grows
              {| is_running := false; joke_threads := []; last_jokes := [];
                 max_stored_jokes := JNum (-1); settings := default_settings;
                 status_label := "Ready to start";
                 next_joke_label := EmptyString;
                 toggle_button := "Start Notifications";
                 status_indicator := "red"; tray_toggle_action := None |}
              {| text := JStr "a"; category := JStr "Misc";
                 time := "10:15 AM"; joke_id := JNum 1 |}
              (-1) ltac:(reflexivity) ltac:(lia)
              ltac:(repeat constructor; eexists; reflexivity))
    as (self' & Hadd & _ & _ & Hempty).
  exists self'. split; [exact Hadd | apply Hempty; reflexivity].
Defined.

Lemma deliver_raises (acts : list action) (self : JokeNotifier) (j : joke)
    (rest : list joke) :
  Py.as_int (max_stored_jokes self) = None ->
  added acts = j :: rest ->
  deliver acts self
  = inl (TypeError ("'>' not supported between instances of 'int' and '"
                    +:+ Py.type_name (max_stored_jokes self) +:+ "'")).
Proof.
  revert self. induction acts as [|a acts IH]; intros self Hcap Hadd;
    [discriminate Hadd|].
  destruct a as [u|m|m|j'|sys t b d|t b]; cbn [added omap] in Hadd;
    cbn [deliver slot]; try (now apply IH).
  - now rewrite (IH (update_status self m) Hcap Hadd).
  - now rewrite (IH (update_next_joke_time self m) Hcap Hadd).
  - unfold add_joke_to_list. now rewrite Hcap.
Qed.

(** X10: a settings file whose [max_history] is not a number does no harm
    while the cap is the 15 of the constructor: a record whose text is a
    string is appended.  Once a save of the settings dialog has copied the
    value into the cap, every append raises a TypeError in the slot,
    whatever the record, and so does every cycle that fetched a joke. *)
Theorem non_numeric_cap_breaks_append (fs : disk) (d : dict) (v : json) :
  settings_file fs = Some (FileObject d) ->
  d !! "max_history" = Some v ->
  Py.as_int v = None ->
  exists self,
    init fs = inr self
    /\ (forall j t, text j = JStr t ->
          exists self1,
            add_joke_to_list self j = inr self1 /\ last_jokes self1 = [j])
    /\ forall dlg fs' j,
         let saved := fst (open_settings self dlg true fs') in
         add_joke_to_list saved j
         = inl (TypeError
                  ("'>' not supported between instances of 'int' and '"
                   +:+ Py.type_name v +:+ "'"))
         /\ forall w, fetched_joke w (settings saved) = Some j ->
              cycle w saved
              = inl (TypeError
                       ("'>' not supported between instances of 'int' and '"
                        +:+ Py.type_name v +:+ "'")).
Proof.
  intros Hfile Hm Hv. rewrite (init_object fs d Hfile).
  eexists. split; [reflexivity|]. split.
  - intros j t Ht.
    edestruct (add_joke_to_list_cap
                 (with_tray (with_settings constructed (d ∪ default_settings))
                    "Start Notifications") j 15)
      as (self1 & Hadd & Hh & _); [reflexivity | lia | |].
    + constructor; [now exists t | constructor].
    + exists self1. split; [exact Hadd | exact Hh].
  - intros dlg fs' j.
    set (saved := fst (open_settings _ dlg true fs')).
    assert (Hcap : max_stored_jokes saved = v).
    { unfold saved. rewrite open_settings_cap. unfold PyOps.get.
      change (default (JNum 15) ((d ∪ default_settings) !! "max_history") = v).
      now rewrite update_lookup, Hm. }
    split.
    + unfold add_joke_to_list. now rewrite Hcap, Hv.
    + intros w Hj. unfold cycle. rewrite <- Hcap.
      apply (deliver_raises _ saved j []); [now rewrite Hcap|].
      rewrite fetch_adds_at_most_one, Hj. reflexivity.
Qed.

Lemma non_numeric_cap_breaks_append_witness :
  exists self,
    init {| settings_file :=
              Some (FileObject (<["max_history" := JStr "20"]> ∅));
            write_raises := None |} = inr self
    /\ forall dlg fs' j,
         add_joke_to_list (fst (open_settings self dlg true fs')) j
         = inl (TypeError
                  "'>' not supported between instances of 'int' and 'str'").
Proof.
  destruct (non_numeric_cap_breaks_append
              {| settings_file :=
                   Some (FileObject (<["max_history" := JStr "20"]> ∅));
                 write_raises := None |}
              (<["max_history" := JStr "20"]> ∅) (JStr "20")
              ltac:(reflexivity) ltac:(vm_compute; reflexivity)
              ltac:(reflexivity)) as (self & Hinit & _ & H).
  exists self. split; [exact Hinit|]. intros dlg fs' j.
  exact (proj1 (H dlg fs' j)).
Defined.

(** ** The settings dialog *)

Ltac through_inserts :=
  repeat first
    [ rewrite lookup_insert_eq
    | rewrite lookup_insert_ne by discriminate ].

Lemma get_settings_lookups (current : dict) (dlg : SettingsDialog) :
  get_settings current dlg !! "frequency" = Some (JNum (frequency_slider dlg))
  /\ get_settings current dlg !! "categories"
     = Some (JList (map JStr (chosen_categories dlg)))
  /\ get_settings current dlg !! "safe_mode" = Some (JBool (safe_mode_cb dlg))
  /\ get_settings current dlg !! "joke_type"
     = Some (JStr (chosen_joke_type dlg))
  /\ get_settings current dlg !! "autostart"
     = Some (JBool (autostart_cb dlg))
  /\ (get_settings current dlg !! "language" = current !! "language"
      \/ exists code, get_settings current dlg !! "language"
                      = Some (JStr code)).
Proof.
  unfold get_settings, chosen_categories, chosen_joke_type.
  repeat split; repeat case_match; through_inserts; try reflexivity;
    try (left; reflexivity); try (right; eexists; reflexivity).
Qed.

Lemma get_settings_other_key (current : dict) (dlg : SettingsDialog)
    (key : string) :
  (forall k, k ∈ dialog_keys -> k <> key) ->
  get_settings current dlg !! key = current !! key.
Proof.
  intros Hne. unfold dialog_keys in Hne. unfold get_settings.
  repeat case_match;
    repeat (rewrite lookup_insert_ne
              by (apply Hne; repeat constructor));
    reflexivity.
Qed.

(** X11: [get_settings] starts from a copy of the settings the dialog was
    opened on and writes six keys only: every other key, such as
    [notification_duration], [max_history] or a key the program does not
    know, comes out with the value it had. *)
Theorem get_settings_keeps_other_keys (current : dict) (dlg : SettingsDialog)
    (key : string) :
  key ∉ dialog_keys ->
  get_settings current dlg !! key = current !! key.
Proof.
  intros Hkey. apply get_settings_other_key. intros k Hk ->. contradiction.
Qed.

Lemma get_settings_keeps_other_keys_witness :
  get_settings default_settings
    (dialog_opened_on 5 ["Pun"] false "single" "de" true)
  !! "notification_duration" = Some (JNum 10).
Proof.
  rewrite (get_settings_keeps_other_keys default_settings _
             "notification_duration").
  - reflexivity.
  - unfold dialog_keys. intros H.
    repeat (apply elem_of_cons in H as [H|H]; [discriminate H|]).
    inversion H.
Defined.

Lemma chosen_categories_nonempty (dlg : SettingsDialog) :
  chosen_categories dlg <> [].
Proof.
  unfold chosen_categories. repeat case_match; congruence.
Qed.

(** X12: whatever the user did in the dialog, the settings it returns
    have a slider value as frequency, a non-empty list of category names, a
    boolean safe mode and autostart, and one of the three joke types; so if
    the settings had a language at all, the next cycle can build its
    request URL from them. *)
Theorem get_settings_well_formed (current : dict) (dlg : SettingsDialog) :
  get_settings current dlg !! "frequency" = Some (JNum (frequency_slider dlg))
  /\ (exists cats,
        cats <> []
        /\ get_settings current dlg !! "categories"
           = Some (JList (map JStr cats)))
  /\ (exists b, get_settings current dlg !! "safe_mode" = Some (JBool b))
  /\ (exists t, t ∈ ["Any"; "single"; "twopart"]
                /\ get_settings current dlg !! "joke_type" = Some (JStr t))
  /\ (exists b, get_settings current dlg !! "autostart" = Some (JBool b))
  /\ (is_Some (current !! "language") ->
      exists u, build_url (get_settings current dlg) = inr u).
Proof.
  destruct (get_settings_lookups current dlg)
    as (Hf & Hc & Hs & Ht & Ha & Hl).
  split; [exact Hf|].
  split; [exists (chosen_categories dlg);
          split; [apply chosen_categories_nonempty | exact Hc]|].
  split; [eauto|]. split.
  { exists (chosen_joke_type dlg). split; [|exact Ht].
    unfold chosen_joke_type. repeat case_match; repeat constructor. }
  split; [eauto|].
  intros [v Hv].
  assert (Hlang : exists v', get_settings current dlg !! "language" = Some v').
  { destruct Hl as [Hl | [code Hl]]; [rewrite Hl; eauto | eauto]. }
  destruct Hlang as [v' Hv'].
  unfold build_url, PyOps.getitem. rewrite Hc, Hs, Ht, Hv'.
  cbn [PyOps.join]. rewrite join_items_strs. cbn [PyOps.lower Py.eq_str].
  repeat case_match; simplify_eq; eauto.
Qed.

Lemma get_settings_well_formed_witness :
  build_url (get_settings default_settings
               (dialog_opened_on 5 ["Pun"; "Dark"] false "Single" "de" true))
  = inr "https://v2.jokeapi.dev/joke/Dark,Pun?blacklistFlags=religious,racist,sexist,explicit&type=twopart&lang=de".
Proof.
  destruct (get_settings_well_formed default_settings
              (dialog_opened_on 5 ["Pun"; "Dark"] false "Single" "de" true))
    as (_ & _ & _ & _ & _ & H).
  destruct H as [u Hu]; [eexists; vm_compute; reflexivity|].
  rewrite Hu. f_equal.
  assert (E : build_url (get_settings default_settings
               (dialog_opened_on 5 ["Pun"; "Dark"] false "Single" "de" true))
          = inr "https://v2.jokeapi.dev/joke/Dark,Pun?blacklistFlags=religious,racist,sexist,explicit&type=twopart&lang=de")
    by (vm_compute; reflexivity).
  congruence.
Defined.

Lemma checked_boxes (cats : list string) (l : list string) :
  map fst (filter (fun cb : string * bool => snd cb = true)
             (map (fun cat => (cat, bool_decide (cat ∈ cats) && negb false)) l))
  = filter (fun cat => cat ∈ cats) l.
Proof.
  induction l as [|c l IH]; [reflexivity|].
  cbn [map]. rewrite !filter_cons. cbn [snd].
  rewrite andb_true_r.
  destruct (decide (c ∈ cats)) as [Hin|Hnin].
  - rewrite (bool_decide_eq_true_2 _ Hin).
    destruct (decide (true = true)); [|congruence]. cbn [map fst].
    now rewrite IH.
  - rewrite (bool_decide_eq_false_2 _ Hnin).
    destruct (decide (false = true)); [discriminate|]. exact IH.
Qed.

Lemma eq_strs_refl (cats : list string) :
  Py.eq (JList (map JStr cats)) (JList (map JStr cats)) = true.
Proof.
  cbn [Py.eq]. induction cats as [|c cats IH]; [reflexivity|].
  cbn [map Py.eq]. rewrite String.eqb_refl. exact IH.
Qed.

Lemma chosen_language (lang : string) (current : dict) :
  current !! "language" = Some (JStr lang) ->
  match filter (fun rb : string * bool => snd rb = true)
          (map (fun l : string * string => (snd l, String.eqb lang (snd l)))
             languages) with
  | (lang_code, _) :: _ => <["language" := JStr lang_code]> current
  | [] => current
  end = current.
Proof.
  intros Hl. unfold languages. cbn [map snd].
  repeat (rewrite filter_cons; cbn [snd];
          match goal with
          | |- context [String.eqb lang ?c] =>
              destruct (String.eqb lang c) eqn:?
          end;
          [match goal with
           | H : String.eqb lang _ = true |- _ =>
               apply String.eqb_eq in H; subst lang
           end;
           destruct (decide (true = true)); [|congruence];
           now apply insert_id
          |destruct (decide (false = true)); [discriminate|]]).
  reflexivity.
Qed.

(** X13: on settings of the shapes the dialog itself produces (a frequency
    between 1 and 120, categories that are [Any] alone or a non-empty
    selection of the six check boxes in their order, one of the three joke
    types), opening the dialog and saving without touching a widget gives
    back exactly the settings it was opened on, and a running poller is not
    restarted. *)
Theorem untouched_dialog_changes_nothing (self : JokeNotifier) (fs : disk)
    (frequency : Z) (cats : list string) (safe auto : bool)
    (jtype lang : string) :
  settings self !! "frequency" = Some (JNum frequency) ->
  1 <= frequency <= 120 ->
  settings self !! "categories" = Some (JList (map JStr cats)) ->
  cats = ["Any"]
  \/ (cats <> []
      /\ cats = filter (fun cat => cat ∈ cats) available_categories) ->
  settings self !! "safe_mode" = Some (JBool safe) ->
  settings self !! "joke_type" = Some (JStr jtype) ->
  jtype ∈ ["Any"; "single"; "twopart"] ->
  settings self !! "language" = Some (JStr lang) ->
  settings self !! "autostart" = Some (JBool auto) ->
  let dlg := dialog_opened_on frequency cats safe jtype lang auto in
  get_settings (settings self) dlg = settings self
  /\ settings (fst (open_settings self dlg true fs)) = settings self
  /\ is_running (fst (open_settings self dlg true fs)) = is_running self
  /\ joke_threads (fst (open_settings self dlg true fs)) = joke_threads self.
Proof.
  intros Hf Hrange Hc Hcats Hs Ht Hjt Hl Ha dlg.
  assert (Hget : get_settings (settings self) dlg = settings self).
  { assert (Hty : (if String.eqb jtype "Any" then "Any"
                   else if String.eqb jtype "single" then "single"
                   else "twopart") = jtype).
    { repeat (apply elem_of_cons in Hjt as [->|Hjt]; [reflexivity|]).
      inversion Hjt. }
    unfold get_settings, dlg, dialog_opened_on.
    cbn [frequency_slider category_mode_any category_checkboxes safe_mode_cb
         joke_type_any joke_type_single language_buttons autostart_cb].
    cbv zeta. unfold slider_value.
    replace (Z.max 1 (Z.min 120 frequency)) with frequency by lia.
    rewrite (insert_id _ _ _ Hf), Hty.
    destruct Hcats as [-> | [Hne Hsel]].
    - rewrite bool_decide_eq_true_2 by repeat constructor.
      rewrite (insert_id _ _ _ Hc), (insert_id _ _ _ Hs),
        (insert_id _ _ _ Ht), (chosen_language lang _ Hl).
      now apply insert_id.
    - assert (Hany : "Any" ∉ cats).
      { rewrite Hsel. intros Hin. apply list_elem_of_filter in Hin as [_ Hin].
        unfold available_categories in Hin.
        repeat (apply elem_of_cons in Hin as [Hin|Hin]; [discriminate Hin|]).
        inversion Hin. }
      rewrite (bool_decide_eq_false_2 _ Hany).
      rewrite checked_boxes, <- Hsel.
      destruct cats as [|c cats']; [congruence|].
      rewrite (insert_id _ _ _ Hc), (insert_id _ _ _ Hs),
        (insert_id _ _ _ Ht), (chosen_language lang _ Hl).
      now apply insert_id. }
  split; [exact Hget|].
  unfold open_settings. rewrite Hget.
  assert (Hsame :
    negb (Py.eq_opt (settings self !! "frequency")
            (settings self !! "frequency"))
    || negb (Py.eq_opt (settings self !! "categories")
               (settings self !! "categories"))
    || negb (Py.eq_opt (settings self !! "safe_mode")
               (settings self !! "safe_mode"))
    || negb (Py.eq_opt (settings self !! "joke_type")
               (settings self !! "joke_type"))
    || negb (Py.eq_opt (settings self !! "language")
               (settings self !! "language"))
    || negb (Py.eq_opt
               (Some (PyOps.get (settings self) "autostart" (JBool false)))
               (settings self !! "autostart")) = false).
  { unfold PyOps.get. rewrite Hf, Hc, Hs, Ht, Hl, Ha. unfold Py.eq_opt.
    cbn [from_option id]. rewrite eq_strs_refl. cbn [Py.eq Py.as_int].
    rewrite Z.eqb_refl, !String.eqb_refl.
    destruct safe, auto; reflexivity. }
  rewrite Hsame, andb_false_r. unfold save_settings_to_file.
  destruct (write_raises fs); repeat split.
Qed.

Lemma untouched_dialog_changes_nothing_witness :
  get_settings default_settings
    (dialog_opened_on 30 ["Any"] true "Any" "en" false)
  = default_settings.
Proof.
  destruct (untouched_dialog_changes_nothing constructed
              {| settings_file := None; write_raises := None |}
              30 ["Any"] true false "Any" "en") as (H & _).
  - reflexivity.
  - lia.
  - reflexivity.
  - left. reflexivity.
  - reflexivity.
  - reflexivity.
  - repeat constructor.
  - reflexivity.
  - reflexivity.
  - exact H.
Defined.

(** ** The loop while it runs *)

Lemma before_deadline (k : tick) (t : thread) :
  (clock k < next_joke_time t)%Q ->
  negb (Qle_bool (next_joke_time t) (clock k)) = true.
Proof.
  intros H. destruct (Qle_bool (next_joke_time t) (clock k)) eqn:E;
    [|reflexivity].
  apply Qle_bool_iff in E. now apply Qlt_not_le in H.
Qed.

(** X14: while the poller is Running and the clock has not reached the
    deadline, a thread in its wait phase stays there with the same
    deadline, and all it emits are countdown updates: no request goes out
    before the deadline. *)
Theorem no_fetch_before_deadline (ks : list tick) (s : dict) (t : thread) :
  in_wait_phase (at_line t) = true ->
  Forall (fun k => (clock k < next_joke_time t)%Q) ks ->
  in_wait_phase (at_line (fst (run ks true s t))) = true
  /\ next_joke_time (fst (run ks true s t)) = next_joke_time t
  /\ Forall (fun a => exists m, a = EmitNextJokeTime m)
       (snd (run ks true s t)).
Proof.
  revert t. induction ks as [|k ks IH]; intros t Hw Hks.
  - repeat split; [exact Hw | constructor].
  - inversion Hks as [|? ? Hk Hrest]; subst. rewrite run_cons.
    assert (Hstep : in_wait_phase (at_line (fst (step k true s t))) = true
                    /\ next_joke_time (fst (step k true s t))
                       = next_joke_time t
                    /\ Forall (fun a => exists m, a = EmitNextJokeTime m)
                         (snd (step k true s t))).
    { unfold step. destruct (at_line t) eqn:Ht; try discriminate Hw;
        cbn [fst snd goto at_line next_joke_time negb];
        rewrite ?(before_deadline k t Hk); cbn [andb in_wait_phase];
        repeat split; repeat constructor; eauto. }
    destruct Hstep as (Hw1 & Hn1 & Ha1).
    destruct (IH (fst (step k true s t)) Hw1) as (Hw2 & Hn2 & Ha2).
    { now rewrite Hn1. }
    cbn [fst snd]. split; [exact Hw2|]. split; [congruence|].
    apply Forall_app. split; assumption.
Qed.

Lemma no_fetch_before_deadline_witness :
  snd (run (replicate 5 {| clock := 100%Q; outside := example_world |})
         true default_settings
         {| at_line := L325; next_joke_time := 1900%Q; remaining := 0 |})
  = [EmitNextJokeTime "Next joke in: 30m 0s"].
Proof.
  destruct (no_fetch_before_deadline
              (replicate 5 {| clock := 100%Q; outside := example_world |})
              default_settings
              {| at_line := L325; next_joke_time := 1900%Q; remaining := 0 |}
              ltac:(reflexivity)
              ltac:(apply Forall_replicate; reflexivity)) as (_ & _ & _).
  vm_compute. reflexivity.
Defined.

(** X15: once the clock has reached the deadline, a Running thread leaves
    the wait loop, performs one fetch-and-notify cycle and is back at the
    head of the wait loop five statements later, with a new deadline.  The
    new deadline does not depend on the old one: whatever deadline the
    thread had, the new one is the same, computed from the clock reading
    taken after the cycle, so the time a cycle takes is added to every
    period.  The frequency is one the sum of line 322 accepts. *)
Theorem deadline_cycle (s : dict) (t : thread) (secs : Z)
    (k1 k2 k3 k4 k5 : tick) :
  at_line t = L325 ->
  (next_joke_time t <= clock k1)%Q ->
  frequency_seconds s = inr secs ->
  exists t',
    run [k1; k2; k3; k4; k5] true s t
    = (t', fst (fetch_and_show_joke (outside k3) s))
    /\ at_line t' = L325
    /\ remaining t' = remaining t
    /\ forall t0 k1' k2' k3' k4',
         at_line t0 = L325 ->
         (next_joke_time t0 <= clock k1')%Q ->
         next_joke_time (fst (run [k1'; k2'; k3'; k4'; k5] true s t0))
         = next_joke_time t'.
Proof.
  intros Ht Hk Hs.
  assert (H : forall t0 k1' k2' k3' k4',
            at_line t0 = L325 ->
            (next_joke_time t0 <= clock k1')%Q ->
            run [k1'; k2'; k3'; k4'; k5] true s t0
            = ({| at_line := L325;
                  next_joke_time := (clock k5 + inject_Z secs)%Q;
                  remaining := remaining t0 |},
               fst (fetch_and_show_joke (outside k3') s))).
  { intros t0 k1' k2' k3' k4' Ht0 Hk0. apply Qle_bool_iff in Hk0.
    cbn [run]. unfold step at 1. rewrite Ht0, Hk0. cbn [negb andb goto].
    unfold step. cbn [at_line goto next_joke_time remaining].
    rewrite Hs. cbn [app]. now rewrite app_nil_r. }
  eexists. split; [apply (H t k1 k2 k3 k4 Ht Hk)|].
  split; [reflexivity|]. split; [reflexivity|].
  intros t0 k1' k2' k3' k4' Ht0 Hk0.
  now rewrite (H t0 k1' k2' k3' k4' Ht0 Hk0).
Qed.

Lemma deadline_cycle_witness :
  exists t',
    run (replicate 5 {| clock := 2000%Q; outside := example_world |})
      true default_settings
      {| at_line := L325; next_joke_time := 1900%Q; remaining := 0 |}
    = (t', fst (fetch_and_show_joke example_world default_settings))
    /\ at_line t' = L325.
Proof.
  destruct (deadline_cycle default_settings
              {| at_line := L325; next_joke_time := 1900%Q; remaining := 0 |}
              1800
              {| clock := 2000%Q; outside := example_world |}
              {| clock := 2000%Q; outside := example_world |}
              {| clock := 2000%Q; outside := example_world |}
              {| clock := 2000%Q; outside := example_world |}
              {| clock := 2000%Q; outside := example_world |}
              ltac:(reflexivity) ltac:(vm_compute; discriminate)
              ltac:(vm_compute; reflexivity)) as (t' & Hrun & Hline & _).
  exists t'. split; [exact Hrun | exact Hline].
Defined.

Lemma run_Raised (ks : list tick) (b : bool) (s : dict) (t : thread)
    (e : exn) :
  at_line t = Raised e -> run ks b s t = (t, []).
Proof.
  intros Ht. induction ks as [|k ks IH]; [reflexivity|].
  rewrite run_cons. unfold step. rewrite Ht. cbn [fst snd app].
  now rewrite IH.
Qed.

(** X16: when the [frequency] in the settings is not a number, or is
    missing, a new thread performs its first cycle and then raises while it
    computes the first deadline: it ends there, and nothing more is ever
    emitted, with [is_running] still set. *)
Theorem bad_frequency_ends_thread (s : dict) (e : exn)
    (k1 k2 k3 : tick) (ks : list tick) :
  frequency_seconds s = inl e ->
  run (k1 :: k2 :: k3 :: ks) true s new_thread
  = ({| at_line := Raised e; next_joke_time := 0%Q; remaining := 0 |},
     fst (fetch_and_show_joke (outside k1) s)).
Proof.
  intros Hs. rewrite !run_cons. unfold step at 1 2 3 4 5 6.
  cbn [at_line new_thread goto fst snd next_joke_time remaining].
  unfold step. cbn [at_line goto fst snd next_joke_time remaining].
  rewrite Hs. cbn [goto at_line fst snd next_joke_time remaining new_thread].
  erewrite run_Raised by reflexivity. cbn [fst snd].
  now rewrite !app_nil_r.
Qed.

Lemma bad_frequency_ends_thread_witness :
  at_line (fst (run (replicate 4 {| clock := 0%Q; outside := example_world |})
                  true settings_bad_frequency
                  new_thread))
  = Raised (TypeError "unsupported operand type(s) for +: 'float' and 'str'").
Proof.
  exact (f_equal (fun p => at_line (fst p))
           (bad_frequency_ends_thread settings_bad_frequency
              (TypeError
                 "unsupported operand type(s) for +: 'float' and 'str'")
              {| clock := 0%Q; outside := example_world |}
              {| clock := 0%Q; outside := example_world |}
              {| clock := 0%Q; outside := example_world |}
              [{| clock := 0%Q; outside := example_world |}]
              ltac:(vm_compute; reflexivity))).
Defined.

(** ** Restarting *)

Lemma open_settings_restarts (self : JokeNotifier) (dlg : SettingsDialog)
    (fs : disk) (f : Z) :
  is_running self = true ->
  settings self !! "frequency" = Some (JNum f) ->
  frequency_slider dlg <> f ->
  is_running (fst (open_settings self dlg true fs)) = true
  /\ joke_threads (fst (open_settings self dlg true fs))
     = (joke_threads self ++ [new_thread])%list
  /\ settings (fst (open_settings self dlg true fs))
     = get_settings (settings self) dlg.
Proof.
  intros Hrun Hf Hne. unfold open_settings.
  destruct (get_settings_lookups (settings self) dlg) as (Hf' & _).
  rewrite Hrun, Hf, Hf'.
  assert (E : negb (Py.eq_opt (Some (JNum f))
                      (Some (JNum (frequency_slider dlg)))) = true).
  { unfold Py.eq_opt. cbn [from_option id Py.eq Py.as_int].
    apply negb_true_iff, Z.eqb_neq. lia. }
  rewrite E. cbn [orb andb]. unfold save_settings_to_file.
  destruct (write_raises fs); repeat split.
Qed.

(** X17: a save of the settings dialog that changes the frequency of a
    Running poller stops and starts it in one go, and that does not end
    the old loop: [is_running] is set again before the old thread tests
    it, so the new thread is added to the old one, and an old thread that
    was asleep in its wait loop goes on and performs its next cycle, with
    the new settings, when its old deadline has passed. *)
Theorem restart_keeps_old_loop (self : JokeNotifier) (dlg : SettingsDialog)
    (fs : disk) (f : Z) (t : thread) (k1 k2 k3 k4 : tick) :
  is_running self = true ->
  settings self !! "frequency" = Some (JNum f) ->
  frequency_slider dlg <> f ->
  at_line t = L336 ->
  (next_joke_time t <= clock k2)%Q ->
  let self' := fst (open_settings self dlg true fs) in
  is_running self' = true
  /\ joke_threads self' = (joke_threads self ++ [new_thread])%list
  /\ run [k1; k2; k3; k4] (is_running self') (settings self') t
     = (goto t L320,
        fst (fetch_and_show_joke (outside k4)
               (get_settings (settings self) dlg))).
Proof.
  intros Hrun Hf Hne Ht Hk self'.
  destruct (open_settings_restarts self dlg fs f Hrun Hf Hne)
    as (Hrun' & Hth & Hset).
  split; [exact Hrun'|]. split; [exact Hth|].
  unfold self'. rewrite Hrun', Hset. apply Qle_bool_iff in Hk.
  destruct t as [l q r]. cbn [at_line next_joke_time] in Ht, Hk. subst l.
  cbn [run step at_line goto next_joke_time remaining].
  rewrite Hk. cbn [negb andb app at_line goto next_joke_time remaining].
  unfold step. cbn [app at_line goto next_joke_time remaining].
  rewrite ?app_nil_r. reflexivity.
Qed.

Lemma restart_keeps_old_loop_witness :
  joke_threads
    (fst (open_settings (start_notifications constructed)
            (dialog_opened_on 5 ["Any"] true "Any" "en" false) true
            {| settings_file := None; write_raises := None |}))
  = [new_thread; new_thread].
Proof.
  destruct (restart_keeps_old_loop (start_notifications constructed)
              (dialog_opened_on 5 ["Any"] true "Any" "en" false)
              {| settings_file := None; write_raises := None |} 30
              {| at_line := L336; next_joke_time := 1900%Q; remaining := 0 |}
              {| clock := 2000%Q; outside := example_world |}
              {| clock := 2000%Q; outside := example_world |}
              {| clock := 2000%Q; outside := example_world |}
              {| clock := 2000%Q; outside := example_world |}
              ltac:(reflexivity) ltac:(reflexivity)
              ltac:(vm_compute; discriminate) ltac:(reflexivity)
              ltac:(vm_compute; discriminate)) as (_ & H & _).
  exact H.
Defined.

(** ** What every session keeps *)

Lemma has_schema_default : has_schema default_settings.
Proof. repeat constructor; eexists; reflexivity. Qed.

Lemma has_schema_update (d old : dict) : has_schema old -> has_schema (d ∪ old).
Proof.
  unfold has_schema. intros H. eapply Forall_impl; [exact H|].
  intros key [v Hv]. rewrite update_lookup, Hv. destruct (d !! key); eauto.
Qed.

Lemma has_schema_get_settings (current : dict) (dlg : SettingsDialog) :
  has_schema current -> has_schema (get_settings current dlg).
Proof.
  intros H. destruct (get_settings_lookups current dlg)
    as (Hf & Hc & Hs & Ht & Ha & Hl).
  unfold has_schema, schema in *.
  inversion H as [|? ? _ H1]; subst. inversion H1 as [|? ? _ H2]; subst.
  inversion H2 as [|? ? _ H3]; subst. inversion H3 as [|? ? _ H4]; subst.
  inversion H4 as [|? ? Hlang H5]; subst. inversion H5 as [|? ? _ H6]; subst.
  inversion H6 as [|? ? Hdur H7]; subst. inversion H7 as [|? ? Hmax _]; subst.
  repeat constructor; try (eexists; eassumption).
  - destruct Hl as [Hl | [code Hl]]; rewrite Hl; eauto.
  - rewrite (get_settings_other_key current dlg "notification_duration");
      [exact Hdur|].
    intros k Hk ->. unfold dialog_keys in Hk.
    repeat (apply elem_of_cons in Hk as [Hk|Hk]; [discriminate Hk|]).
    inversion Hk.
  - now rewrite get_settings_max_history.
Qed.

Lemma kept_same_controls (a b : JokeNotifier) :
  same_controls a b -> kept b -> kept a.
Proof.
  intros (Hr & Hb & Hi & Ht & Hs) [(L1 & L2 & L3) Hsch].
  split; [|now rewrite Hs].
  unfold labels_agree. rewrite Hr, Hb, Hi, Ht. auto.
Qed.

Lemma slot_same_controls (a : action) (self self' : JokeNotifier) :
  slot a self = inr self' -> same_controls self' self.
Proof.
  destruct a; cbn [slot]; intros H; simplify_eq; try (repeat split; fail).
  unfold add_joke_to_list in H. destruct (Py.as_int _); simplify_eq.
  cbv zeta in H. destruct (snd (update_jokes_listbox _)); simplify_eq.
  repeat split.
Qed.

Lemma deliver_same_controls (acts : list action) (self self' : JokeNotifier) :
  deliver acts self = inr self' -> same_controls self' self.
Proof.
  revert self. induction acts as [|a acts IH]; intros self H; cbn [deliver] in H.
  - simplify_eq. repeat split.
  - destruct (slot a self) as [e|s1] eqn:E; [discriminate|].
    apply slot_same_controls in E. apply IH in H.
    destruct H as (?&?&?&?&?), E as (?&?&?&?&?). repeat split; congruence.
Qed.

Lemma kept_start (self : JokeNotifier) :
  kept self -> kept (start_notifications self).
Proof.
  intros [(L1 & L2 & L3) Hs]. split; [|exact Hs].
  repeat split. cbn. intros label. destruct (tray_toggle_action self);
    intros H; now simplify_eq.
Qed.

Lemma kept_stop (self : JokeNotifier) :
  kept self -> kept (stop_notifications self).
Proof.
  intros [(L1 & L2 & L3) Hs]. split; [|exact Hs].
  repeat split. cbn. intros label. destruct (tray_toggle_action self);
    intros H; now simplify_eq.
Qed.

Lemma kept_toggle (self : JokeNotifier) :
  kept self -> kept (toggle_notifications self).
Proof.
  intros H. unfold toggle_notifications.
  destruct (is_running self); [now apply kept_stop | now apply kept_start].
Qed.

Lemma kept_save (self : JokeNotifier) (fs : disk) :
  kept self -> kept (fst (save_settings_to_file self fs)).
Proof.
  intros H. unfold save_settings_to_file.
  destruct (write_raises fs); [|exact H].
  eapply kept_same_controls; [|exact H]. repeat split.
Qed.

Lemma kept_open_settings (self : JokeNotifier) (dlg : SettingsDialog)
    (accepted : bool) (fs : disk) :
  kept self -> kept (fst (open_settings self dlg accepted fs)).
Proof.
  intros H. unfold open_settings. destruct accepted; [|exact H].
  match goal with
  | |- context [save_settings_to_file ?x fs] =>
      assert (Hx : kept x); [|pose proof (kept_save x fs Hx) as Hsave;
        destruct (save_settings_to_file x fs) as [s1 fs1]]
  end.
  - match goal with
    | |- kept (if ?c then start_notifications (stop_notifications ?y) else _) =>
        assert (Hy : kept y)
    end.
    { destruct H as [(L1 & L2 & L3) Hs]. split; [repeat split; assumption|].
      cbn [settings]. now apply has_schema_get_settings. }
    case_match; [now apply kept_start, kept_stop | exact Hy].
  - cbn [fst] in *. eapply kept_same_controls; [|exact Hsave]. repeat split.
Qed.

Lemma has_schema_insert (key : string) (value : json) (d : dict) :
  has_schema d -> has_schema (<[key := value]> d).
Proof.
  unfold has_schema. intros H. eapply Forall_impl; [exact H|].
  intros k [v Hv]. destruct (decide (key = k)) as [->|Hne].
  - rewrite lookup_insert_eq. eauto.
  - rewrite lookup_insert_ne by exact Hne. eauto.
Qed.

Lemma has_schema_update_items (items : list json) (i : nat) (d : dict) :
  has_schema d -> has_schema (fst (PyOps.update_items i items d)).
Proof.
  revert i d. induction items as [|item items IH]; intros i d Hd;
    cbn [PyOps.update_items]; [exact Hd|].
  destruct (PyOps.update_item i item) as [e|[[key value]|]]; [exact Hd| |].
  - apply IH. now apply has_schema_insert.
  - now apply IH.
Qed.

Lemma has_schema_update_value (v : json) (d : dict) :
  has_schema d -> has_schema (fst (PyOps.update d v)).
Proof.
  intros Hd. destruct v; cbn [PyOps.update fst]; try exact Hd;
    now apply has_schema_update_items.
Qed.

Lemma kept_init (fs : disk) (self : JokeNotifier) :
  init fs = inr self -> kept self.
Proof.
  unfold init, load_settings, load_settings_try.
  destruct (settings_file fs) as [[d|v|e]|].
  - intros H; simplify_eq.
    split; [repeat split; cbn; intros; now simplify_eq|].
    apply has_schema_update, has_schema_default.
  - pose proof (has_schema_update_value v (settings constructed)
                  has_schema_default) as Hs.
    destruct (PyOps.update (settings constructed) v) as [merged [e|]];
      intros H; simplify_eq;
      (split; [repeat split; cbn; intros; now simplify_eq | exact Hs]).
  - intros H; simplify_eq.
    split; [repeat split; cbn; intros; now simplify_eq|].
    apply has_schema_default.
  - intros H; simplify_eq.
    split; [repeat split; cbn; intros; now simplify_eq|].
    apply has_schema_default.
Qed.

Lemma kept_handle (ev : event) (self self' : JokeNotifier) (fs fs' : disk) :
  handle ev (self, fs) = inr (self', fs') -> kept self -> kept self'.
Proof.
  intros H Hk. destruct ev; cbn [handle] in H.
  - simplify_eq. now apply kept_toggle.
  - simplify_eq. unfold toggle_notifications_from_tray.
    destruct (kept_toggle self Hk) as [(L1 & L2 & L3) Hs].
    split; [|exact Hs]. repeat split; try assumption.
    cbn. intros label Hl. simplify_eq. now rewrite L1.
  - simplify_eq. now apply kept_start.
  - destruct (slot a self) eqn:E; simplify_eq.
    eapply kept_same_controls; [|exact Hk]. now apply (slot_same_controls a).
  - unfold send_test_notification in H. cbn [snd] in H.
    destruct (deliver _ self) eqn:E; simplify_eq.
    apply deliver_same_controls in E.
    eapply kept_same_controls; [|exact Hk].
    destruct E as (?&?&?&?&?). repeat split; assumption.
  - pose proof (kept_open_settings self dlg accepted fs Hk) as Ho.
    destruct (open_settings self dlg accepted fs). now simplify_eq.
  - unfold closeEvent in H. destruct tray_visible; [now simplify_eq|].
    match type of H with
    | context [save_settings_to_file ?x fs] =>
        assert (Hx : kept x)
          by (destruct (is_running self); [now apply kept_stop | exact Hk]);
        pose proof (kept_save x fs Hx) as Hsave;
        destruct (save_settings_to_file x fs)
    end.
    now simplify_eq.
Qed.

Lemma kept_session (fs : disk) (evs : list event) (self : JokeNotifier)
    (fs' : disk) :
  session fs evs = inr (self, fs') -> kept self.
Proof.
  unfold session. destruct (init fs) as [e|s0] eqn:Hinit; [discriminate|].
  apply kept_init in Hinit. revert s0 Hinit. generalize fs.
  induction evs as [|ev evs IH]; intros fs0 s0 Hk H; cbn [handle_all] in H.
  - now simplify_eq.
  - destruct (handle ev (s0, fs0)) as [e|[s1 fs1]] eqn:E; [discriminate|].
    eapply IH; [|exact H]. eapply kept_handle; eassumption.
Qed.

(** X18: after the constructor and any sequence of clicks, timer shots,
    signals, dialogs and close requests, the texts of the toggle button, of
    the status indicator and of the tray entry agree with [is_running]:
    the window never says Stop Notifications while it is stopped, nor
    Start Notifications while it runs. *)
Theorem labels_follow_state (fs : disk) (evs : list event)
    (self : JokeNotifier) (fs' : disk) :
  session fs evs = inr (self, fs') -> labels_agree self.
Proof.
  intros H. exact (proj1 (kept_session fs evs self fs' H)).
Qed.

Lemma labels_follow_state_witness :
  exists self fs',
    session empty_disk example_session = inr (self, fs')
    /\ labels_agree self.
Proof.
  destruct (session empty_disk example_session) as [e|[self fs']] eqn:E.
  - vm_compute in E. discriminate E.
  - exists self, fs'. split; [reflexivity|].
    exact (labels_follow_state empty_disk example_session self fs' E).
Defined.

Lemma join_items_not_KeyError (i : nat) (l : list json) (k : string) :
  PyOps.join_items i l <> inl (KeyError k).
Proof.
  revert i. induction l as [|v l IH]; intros i; cbn [PyOps.join_items];
    [discriminate|].
  destruct v; try discriminate.
  specialize (IH (S i)). destruct (PyOps.join_items (S i) l); congruence.
Qed.

(** X19: after the constructor and any sequence of events, the settings
    still have all eight keys of the schema, whatever the settings file
    held and whatever was done in the dialog; so building the request URL
    never fails for a missing key. *)
Theorem schema_keys_stay (fs : disk) (evs : list event)
    (self : JokeNotifier) (fs' : disk) :
  session fs evs = inr (self, fs') ->
  has_schema (settings self)
  /\ forall key, build_url (settings self) <> inl (KeyError key).
Proof.
  intros H. destruct (kept_session fs evs self fs' H) as [_ Hs].
  split; [exact Hs|]. intros key.
  unfold has_schema, schema in Hs.
  inversion Hs as [|? ? _ H1]; subst. inversion H1 as [|? ? [c Hc] H2]; subst.
  inversion H2 as [|? ? [sm Hsm] H3]; subst.
  inversion H3 as [|? ? [jt Hjt] H4]; subst.
  inversion H4 as [|? ? [la Hla] _]; subst.
  unfold build_url, PyOps.getitem. rewrite Hc, Hsm, Hjt, Hla.
  unfold PyOps.join, PyOps.lower.
  pose proof (join_items_not_KeyError 0) as Hj.
  repeat case_match; simplify_eq; try discriminate;
    try (intros ?; simplify_eq; eapply Hj; eassumption).
Qed.

Lemma schema_keys_stay_witness :
  exists self fs',
    session empty_disk example_session = inr (self, fs')
    /\ has_schema (settings self).
Proof.
  destruct (session empty_disk example_session) as [e|[self fs']] eqn:E.
  - vm_compute in E. discriminate E.
  - exists self, fs'. split; [reflexivity|].
    exact (proj1 (schema_keys_stay empty_disk example_session self fs' E)).
Defined.

(** ** The list of recent jokes *)

Lemma length_append (a b : string) :
  String.length (a +:+ b) = (String.length a + String.length b)%nat.
Proof.
  induction a as [|c a IH]; [reflexivity|].
  change (S (String.length (a +:+ b))
          = S (String.length a + String.length b)). now rewrite IH.
Qed.

Lemma length_slice_to (s : string) (n : nat) :
  String.length (PyStr.slice_to s n) = Nat.min n (String.length s).
Proof.
  unfold PyStr.slice_to. revert s. induction n as [|n IH]; intros s.
  - destruct s; reflexivity.
  - destruct s as [|c s]; [reflexivity|]. cbn [String.substring String.length].
    now rewrite IH.
Qed.

Lemma row_text_short (t : string) : (String.length (row_text t) <= 60)%nat.
Proof.
  unfold row_text. cbv zeta.
  destruct (Nat.ltb_spec 60
              (String.length (PyStr.replace (Py.LF +:+ Py.LF) " - " t)));
    [|assumption].
  rewrite length_append, length_slice_to. cbn [String.length]. lia.
Qed.

Lemma listbox_row_str (j : joke) (t : string) :
  text j = JStr t ->
  listbox_row j = inr ("[" +:+ time j +:+ "] " +:+ row_text t).
Proof. intros H. unfold listbox_row. now rewrite H. Qed.

(** X20: when every record of the history has a string as its text, the
    refresh of the list widget does not raise and shows one row per record,
    in the order of the history; a row is the time stamp in brackets
    followed by a text of at most 60 characters, which is the joke with its
    blank line replaced when that fits, and else its first 57 characters
    followed by three dots. *)
Theorem listbox_rows (history : list joke) :
  Forall (fun j => exists t, text j = JStr t) history ->
  exists rows,
    update_jokes_listbox history = (rows, inr tt)
    /\ Forall2
         (fun j row =>
            exists t shown,
              text j = JStr t
              /\ row = "[" +:+ time j +:+ "] " +:+ shown
              /\ (String.length shown <= 60)%nat
              /\ let replaced := PyStr.replace (Py.LF +:+ Py.LF) " - " t in
                 ((String.length replaced <= 60)%nat -> shown = replaced)
                 /\ ((60 < String.length replaced)%nat ->
                     shown = PyStr.slice_to replaced 57 +:+ "..."
                     /\ String.length shown = 60%nat))
         history rows.
Proof.
  induction 1 as [|j history [t Ht] _ (rows & Hrows & Hall)].
  - exists []. split; [reflexivity | constructor].
  - exists (("[" +:+ time j +:+ "] " +:+ row_text t) :: rows).
    cbn [update_jokes_listbox]. rewrite (listbox_row_str j t Ht), Hrows.
    split; [reflexivity|]. constructor; [|exact Hall].
    exists t, (row_text t). split; [exact Ht|]. split; [reflexivity|].
    split; [apply row_text_short|]. cbv zeta. unfold row_text. cbv zeta.
    destruct (Nat.ltb_spec 60
                (String.length (PyStr.replace (Py.LF +:+ Py.LF) " - " t))).
    + split; [lia|]. intros _. split; [reflexivity|].
      rewrite length_append, length_slice_to. cbn [String.length]. lia.
    + split; [reflexivity | lia].
Qed.

Lemma listbox_rows_witness :
  update_jokes_listbox
    [{| text := JStr ("Why did the chicken cross the road?"
                      +:+ Py.LF +:+ Py.LF +:+ "To get to the other side.");
        category := JStr "Misc"; time := "10:15 AM"; joke_id := JNum 42 |}]
  = (["[10:15 AM] Why did the chicken cross the road? - To get to the other..."],
     inr tt).
Proof.
  destruct (listbox_rows
              [{| text := JStr ("Why did the chicken cross the road?"
                                +:+ Py.LF +:+ Py.LF
                                +:+ "To get to the other side.");
                  category := JStr "Misc"; time := "10:15 AM";
                  joke_id := JNum 42 |}]) as (rows & Hrows & _).
  - repeat constructor. eexists. reflexivity.
  - rewrite Hrows. vm_compute in Hrows. congruence.
Defined.

Lemma one_line_cons (c : ascii) (s : string) :
  one_line (String c s) -> c <> "010"%char /\ one_line s.
Proof.
  unfold one_line, Py.contains_char. cbn [list_ascii_of_string existsb].
  intros H. apply orb_false_elim in H as [Hc Hs]. split; [|exact Hs].
  intros ->. now rewrite Ascii.eqb_refl in Hc.
Qed.

Lemma replace_go_one_line (new s rest : string) :
  one_line s ->
  PyStr.replace_go (Py.LF +:+ Py.LF) new 0 (s +:+ rest)
  = s +:+ PyStr.replace_go (Py.LF +:+ Py.LF) new 0 rest.
Proof.
  induction s as [|c s IH]; intros Hs; [reflexivity|].
  apply one_line_cons in Hs as [Hc Hs].
  change (String c s +:+ rest) with (String c (s +:+ rest)).
  cbn [PyStr.replace_go].
  assert (E : String.prefix (Py.LF +:+ Py.LF) (String c (s +:+ rest)) = false).
  { change (Py.LF +:+ Py.LF)
      with (String "010"%char (String "010"%char EmptyString)).
    cbn [String.prefix]. destruct (ascii_dec "010"%char c); congruence. }
  rewrite E, (IH Hs). reflexivity.
Qed.

(** X21: a two-part joke whose setup and delivery hold no line feed is
    listed on one line as the setup, a dash between two spaces, and the
    delivery, behind its time stamp; when that is longer than 60 characters
    the row shows its first 57 characters and three dots. *)
Theorem twopart_row (j : joke) (S D : string) :
  text j = JStr (S +:+ Py.LF +:+ Py.LF +:+ D) ->
  one_line S -> one_line D ->
  PyStr.replace (Py.LF +:+ Py.LF) " - " (S +:+ Py.LF +:+ Py.LF +:+ D)
  = S +:+ " - " +:+ D
  /\ ((String.length (S +:+ " - " +:+ D) <= 60)%nat ->
      listbox_row j = inr ("[" +:+ time j +:+ "] " +:+ S +:+ " - " +:+ D))
  /\ ((60 < String.length (S +:+ " - " +:+ D))%nat ->
      listbox_row j
      = inr ("[" +:+ time j +:+ "] "
             +:+ PyStr.slice_to (S +:+ " - " +:+ D) 57 +:+ "...")).
Proof.
  intros Ht HS HD.
  assert (E : PyStr.replace (Py.LF +:+ Py.LF) " - "
                (S +:+ Py.LF +:+ Py.LF +:+ D) = S +:+ " - " +:+ D).
  { change (PyStr.replace (Py.LF +:+ Py.LF) " - "
              (S +:+ Py.LF +:+ Py.LF +:+ D))
      with (PyStr.replace_go (Py.LF +:+ Py.LF) " - " 0
              (S +:+ Py.LF +:+ Py.LF +:+ D)).
    rewrite (replace_go_one_line " - " S _ HS). f_equal.
    change (Py.LF +:+ Py.LF +:+ D)
      with (String "010"%char (String "010"%char D)).
    cbn [PyStr.replace_go].
    assert (P : String.prefix (Py.LF +:+ Py.LF)
                  (String "010"%char (String "010"%char D)) = true).
    { change (Py.LF +:+ Py.LF)
        with (String "010"%char (String "010"%char EmptyString)).
      cbn [String.prefix].
      destruct (ascii_dec "010"%char "010"%char); [|congruence].
      destruct D; reflexivity. }
    rewrite P.
    change (String.length (Py.LF +:+ Py.LF) - 1)%nat with 1%nat.
    cbn [PyStr.replace_go]. f_equal.
    rewrite <- (append_empty_r D) at 1.
    rewrite (replace_go_one_line " - " D EmptyString HD).
    cbn [PyStr.replace_go]. apply append_empty_r. }
  split; [exact E|].
  rewrite (listbox_row_str j _ Ht). unfold row_text. cbv zeta. rewrite E.
  split; intros Hlen.
  - destruct (Nat.ltb_spec 60 (String.length (S +:+ " - " +:+ D)));
      [lia | reflexivity].
  - destruct (Nat.ltb_spec 60 (String.length (S +:+ " - " +:+ D)));
      [|lia].
    reflexivity.
Qed.

Lemma twopart_row_witness :
  listbox_row {| text := JStr ("Knock knock." +:+ Py.LF +:+ Py.LF
                               +:+ "Who is there?");
                 category := JStr "Misc"; time := "10:15 AM";
                 joke_id := JNum 1 |}
  = inr "[10:15 AM] Knock knock. - Who is there?".
Proof.
  destruct (twopart_row
              {| text := JStr ("Knock knock." +:+ Py.LF +:+ Py.LF
                               +:+ "Who is there?");
                 category := JStr "Misc"; time := "10:15 AM";
                 joke_id := JNum 1 |}
              "Knock knock." "Who is there?"
              ltac:(reflexivity) ltac:(reflexivity) ltac:(reflexivity))
    as (_ & H & _).
  rewrite H; [reflexivity | vm_compute; lia].
Defined.

(** ** Closing and coming back *)

Lemma default_keys (key : string) :
  is_Some (default_settings !! key) -> key ∈ schema.
Proof.
  unfold default_settings, schema. intros H.
  repeat (rewrite lookup_insert in H; case_decide;
          [subst key; repeat constructor|]).
  rewrite lookup_empty in H. now destruct H.
Qed.

Lemma update_over_defaults (s : dict) :
  has_schema s -> s ∪ default_settings = s.
Proof.
  intros Hs. apply map_eq. intros key. rewrite update_lookup.
  destruct (s !! key) as [v|] eqn:Hv; [reflexivity|].
  destruct (default_settings !! key) as [v|] eqn:Hd; [|reflexivity].
  assert (Hin : key ∈ schema) by (apply default_keys; eauto).
  unfold has_schema in Hs. rewrite Forall_forall in Hs.
  destruct (Hs key Hin) as [x Hx]. congruence.
Qed.

(** X22: closing the window while the tray icon is visible only hides it:
    the poller, the settings and the file stay as they are and the close is
    refused.  Without a tray icon the close stops the poller and saves the
    settings, and the next launch starts from exactly these settings,
    stopped, with an empty history and the cap back at 15. *)
Theorem settings_survive_restart (self : JokeNotifier) (fs : disk) :
  write_raises fs = None ->
  has_schema (settings self) ->
  (exists balloon, closeEvent self true fs = (balloon, self, fs, false))
  /\ exists self' fs' next,
       closeEvent self false fs = ([], self', fs', true)
       /\ is_running self' = false
       /\ settings self' = settings self
       /\ init fs' = inr next
       /\ settings next = settings self
       /\ is_running next = false
       /\ last_jokes next = []
       /\ max_stored_jokes next = JNum 15.
Proof.
  intros Hw Hs. split; [eexists; reflexivity|].
  unfold closeEvent, save_settings_to_file.
  assert (E : write_raises fs = None) by exact Hw.
  destruct (is_running self) eqn:Hrun; rewrite E;
    (eexists _, _, _; split; [reflexivity|]);
    (split; [first [reflexivity | exact Hrun]|]);
    (split; [reflexivity|]);
    unfold init, load_settings, load_settings_try;
    cbn [settings_file stop_notifications settings];
    (split; [reflexivity|]);
    cbn [with_tray with_settings settings constructed is_running last_jokes
         max_stored_jokes];
    (split; [now apply update_over_defaults | repeat split]).
Qed.

Lemma settings_survive_restart_witness :
  exists self' fs' next,
    closeEvent (start_notifications constructed) false empty_disk
    = ([], self', fs', true)
    /\ init fs' = inr next
    /\ settings next = default_settings.
Proof.
  destruct (settings_survive_restart (start_notifications constructed)
              empty_disk ltac:(reflexivity)
              ltac:(repeat constructor; eexists; reflexivity))
    as (_ & self' & fs' & next & Hclose & _ & _ & Hinit & Hset & _).
  exists self', fs', next. repeat split; assumption.
Defined.

(** X23: a test notification never raises and always leaves the status
    Test notification sent, also when the notification backend raised: the
    notification error it reported is overwritten at once, and the test
    message is shown in a message box instead.  The history is not
    touched. *)
Theorem test_notification_status (w : world) (self : JokeNotifier) :
  (exists self',
     snd (send_test_notification w self) = inr self'
     /\ status_label self' = "Test notification sent"
     /\ last_jokes self' = last_jokes self
     /\ is_running self' = is_running self)
  /\ forall e, backend_raises w = Some e ->
       fst (send_test_notification w self)
       = [EmitStatus ("Notification error: " +:+ Py.str_exn e);
          MessageBox (JStr "Test Notification")
            (JStr "This is a test notification from Joke Notifier. If you can see this, notifications are working!")].
Proof.
  unfold send_test_notification, show_notification, notification_failed.
  cbn [fst snd].
  destruct (backend_raises w) as [e|].
  - split; [eexists; repeat split|]. intros e' He. now simplify_eq.
  - split; [|discriminate].
    destruct (NOTIFICATION_SYSTEM w), (tray_icon w);
      try destruct (PyOps.times_1000 _); eexists; repeat split.
Qed.

Lemma test_notification_status_witness :
  fst (send_test_notification broken_backend_world constructed)
  = [EmitStatus "Notification error: no notification service";
     MessageBox (JStr "Test Notification")
       (JStr "This is a test notification from Joke Notifier. If you can see this, notifications are working!")].
Proof.
  destruct (test_notification_status broken_backend_world constructed)
    as (_ & H).
  exact (H (IOError "no notification service") eq_refl).
Defined.

Lemma listbox_row_of_index (history : list joke) (rows : list string)
    (index : nat) (row : string) :
  update_jokes_listbox history = (rows, inr tt) ->
  rows !! index = Some row ->
  exists j, history !! index = Some j /\ listbox_row j = inr row.
Proof.
  revert rows index. induction history as [|j history IH];
    intros rows index Hrows Hrow; cbn [update_jokes_listbox] in Hrows.
  - inversion Hrows; subst. destruct index; discriminate Hrow.
  - destruct (listbox_row j) as [e|r] eqn:Hj; [discriminate|].
    destruct (update_jokes_listbox history) as [rows' res] eqn:Hrest.
    simplify_eq. destruct index as [|index]; cbn in Hrow.
    + simplify_eq. exists j. split; [reflexivity | exact Hj].
    + destruct (IH rows' index eq_refl Hrow) as (j' & Hj' & Hr').
      exists j'. split; [exact Hj' | exact Hr'].
Qed.

(** X24: after a refresh of the list widget that did not raise, the row at
    an index is the row of the history record at the same index, so the
    detail dialog that [show_full_joke] opens from a row shows the joke
    that row lists; the widget has as many rows as the history has
    records. *)
Theorem row_opens_its_joke (self : JokeNotifier) (rows : list string)
    (index : nat) (row : string) :
  update_jokes_listbox (last_jokes self) = (rows, inr tt) ->
  rows !! index = Some row ->
  length rows = length (last_jokes self)
  /\ exists j, show_full_joke self index = Some j /\ listbox_row j = inr row.
Proof.
  intros Hrows Hrow. split.
  - clear Hrow. revert rows Hrows.
    induction (last_jokes self) as [|j history IH]; intros rows Hrows;
      cbn [update_jokes_listbox] in Hrows; [now simplify_eq|].
    destruct (listbox_row j); [discriminate|].
    destruct (update_jokes_listbox history) as [rows' res] eqn:Hrest.
    simplify_eq. cbn [length]. f_equal. now apply IH.
  - exact (listbox_row_of_index _ rows index row Hrows Hrow).
Qed.

Lemma row_opens_its_joke_witness :
  show_full_joke
    {| is_running := false; joke_threads := [];
       last_jokes :=
         [{| text := JStr "b"; category := JStr "Pun"; time := "10:45 AM";
             joke_id := JNum 2 |};
          {| text := JStr "a"; category := JStr "Misc"; time := "10:15 AM";
             joke_id := JNum 1 |}];
       max_stored_jokes := JNum 15; settings := default_settings;
       status_label := "Ready to start"; next_joke_label := EmptyString;
       toggle_button := "Start Notifications"; status_indicator := "red";
       tray_toggle_action := None |} 1
  = Some {| text := JStr "a"; category := JStr "Misc"; time := "10:15 AM";
            joke_id := JNum 1 |}.
Proof.
  destruct (row_opens_its_joke
              {| is_running := false; joke_threads := [];
                 last_jokes :=
                   [{| text := JStr "b"; category := JStr "Pun";
                       time := "10:45 AM"; joke_id := JNum 2 |};
                    {| text := JStr "a"; category := JStr "Misc";
                       time := "10:15 AM"; joke_id := JNum 1 |}];
                 max_stored_jokes := JNum 15; settings := default_settings;
                 status_label := "Ready to start";
                 next_joke_label := EmptyString;
                 toggle_button := "Start Notifications";
                 status_indicator := "red"; tray_toggle_action := None |}
              ["[10:45 AM] b"; "[10:15 AM] a"] 1 "[10:15 AM] a"
              ltac:(reflexivity) ltac:(reflexivity))
    as (_ & j & Hj & _).
  rewrite Hj. vm_compute in Hj. congruence.
Defined.

(** ** Values the schema does not expect *)





(** X28: with notify2, or with the tray icon of Qt, a notification
    duration that is null makes [duration * 1000] raise before the backend
    is handed anything: the TypeError goes to the status, the fallback box
    is posted and [show_notification] returns false. *)
Theorem null_duration_fails (w : world) (s : dict) (title message : json) :
  backend_raises w = None ->
  NOTIFICATION_SYSTEM w = notify2
  \/ (NOTIFICATION_SYSTEM w = qt /\ tray_icon w = true) ->
  s !! "notification_duration" = Some JNull ->
  show_notification w s title message
  = ([EmitStatus
        "Notification error: unsupported operand type(s) for *: 'NoneType' and 'int'";
      MessageBox title message],
     inr false).
Proof.
  intros Hb Hsys Hd. unfold show_notification, PyOps.get.
  rewrite Hb, Hd. cbn [from_option id PyOps.times_1000].
  destruct Hsys as [-> | [-> ->]]; [destruct (tray_icon w)|]; reflexivity.
Qed.

Lemma null_duration_fails_witness :
  show_notification notify2_world settings_null_duration
    (JStr "Joke Time!") (JStr "a")
  = ([EmitStatus
        "Notification error: unsupported operand type(s) for *: 'NoneType' and 'int'";
      MessageBox (JStr "Joke Time!") (JStr "a")],
     inr false).
Proof.
  apply null_duration_fails;
    [reflexivity | left; reflexivity | vm_compute; reflexivity].
Defined.

(** X29: a frequency whose seconds are out of the range of the floats
    makes the sum of line 322 raise an OverflowError: a new thread performs
    its first cycle and ends there, with [is_running] still set. *)
Theorem huge_frequency_ends_thread (s : dict) (n : Z)
    (k1 k2 k3 : tick) (ks : list tick) :
  s !! "frequency" = Some (JNum n) ->
  float_overflow <= Z.abs (n * 60) ->
  run (k1 :: k2 :: k3 :: ks) true s new_thread
  = ({| at_line := Raised (OverflowError "int too large to convert to float");
        next_joke_time := 0%Q; remaining := 0 |},
     fst (fetch_and_show_joke (outside k1) s)).
Proof.
  intros Hn Hbig.
  assert (Hs : frequency_seconds s
               = inl (OverflowError "int too large to convert to float")).
  { unfold frequency_seconds, PyOps.getitem. rewrite Hn. cbn [Py.as_int].
    destruct (Z.leb_spec float_overflow (Z.abs (n * 60))); [reflexivity|lia]. }
  rewrite !run_cons. unfold step at 1 2 3 4 5 6.
  cbn [at_line new_thread goto fst snd next_joke_time remaining].
  unfold step. cbn [at_line goto fst snd next_joke_time remaining].
  rewrite Hs. cbn [goto at_line fst snd next_joke_time remaining new_thread].
  erewrite run_Raised by reflexivity. cbn [fst snd].
  now rewrite !app_nil_r.
Qed.

Lemma huge_frequency_ends_thread_witness :
  at_line (fst (run (replicate 4 {| clock := 0%Q; outside := example_world |})
                  true settings_huge_frequency new_thread))
  = Raised (OverflowError "int too large to convert to float").
Proof.
  exact (f_equal (fun p => at_line (fst p))
           (huge_frequency_ends_thread settings_huge_frequency (2 ^ 1024)
              {| clock := 0%Q; outside := example_world |}
              {| clock := 0%Q; outside := example_world |}
              {| clock := 0%Q; outside := example_world |}
              [{| clock := 0%Q; outside := example_world |}]
              ltac:(vm_compute; reflexivity)
              ltac:(vm_compute; discriminate))).
Defined.
